(** * Node and link taxonomy of the emulator (daemon/core/netns/nodes.py)

    A shallow embedding of the node classes of [nodes.py]: [CtrlNet],
    [PtpNet], [WlanNode] and [RJ45Node].  Python objects become records,
    methods become functions in a state-and-exception monad, dictionaries
    become finite maps (or association lists where the iteration order is
    observable), and the host commands the code spawns go through one
    interface, [Host], so that what a method did to the host can be read
    off the resulting world. *)

From Stdlib Require Import ZArith String Ascii List Bool Lia.
From stdpp Require Import base option list gmap strings pretty.

Local Open Scope string_scope.
Local Open Scope list_scope.
Local Open Scope Z_scope.

(** ** Python values and control flow *)

Module Py.

(** The exceptions that the modelled methods can let escape. *)
Inductive exn : Type :=
| ValueError (msg : string)
| AttributeError
| IndexError
| UnboundLocalError
| OSError
| CalledProcessError
| SocketError.

(** The outcome of a call: a value, or an exception on its way up. *)
Inductive result (A : Type) : Type :=
| Ok (a : A)
| Raise (e : exn).
Arguments Ok {A} a.
Arguments Raise {A} e.

#[global] Instance result_ret : MRet result := fun A a => Ok a.
#[global] Instance result_bind : MBind result :=
  fun A B f m => match m with Ok a => f a | Raise e => Raise e end.
#[global] Instance result_fmap : FMap result :=
  fun A B f m => match m with Ok a => Ok (f a) | Raise e => Raise e end.

(** A method body: it reads and writes a state [St] (the object and the
    world around it) and either returns or raises.  What was written
    before a [raise] stays written, as in Python. *)
Definition M (St A : Type) : Type := St -> result A * St.

Definition ret {St A} (a : A) : M St A := fun s => (Ok a, s).
Definition raise {St A} (e : exn) : M St A := fun s => (Raise e, s).
Definition bind {St A B} (m : M St A) (k : A -> M St B) : M St B :=
  fun s => match m s with
           | (Ok a, s') => k a s'
           | (Raise e, s') => (Raise e, s')
           end.
#[global] Instance M_ret {St} : MRet (M St) := fun A a => ret a.
#[global] Instance M_bind {St} : MBind (M St) := fun A B k m => bind m k.

(** A computation that only returns or raises. *)
Definition lift {St A} (r : result A) : M St A := fun s => (r, s).

Definition get {St} : M St St := fun s => (Ok s, s).
Definition put {St} (s : St) : M St unit := fun _ => (Ok tt, s).
Definition modify {St} (f : St -> St) : M St unit := fun s => (Ok tt, f s).

(** [try: body except e: handler], catching the exceptions [catches] accepts. *)
Definition try_except {St A} (body : M St A) (catches : exn -> bool)
    (handler : M St A) : M St A :=
  fun s => match body s with
           | (Raise e, s') => if catches e then handler s' else (Raise e, s')
           | r => r
           end.

(** [for x in xs: body x] *)
Fixpoint for_each {St A} (xs : list A) (body : A -> M St unit) : M St unit :=
  match xs with
  | [] => ret tt
  | x :: xs' => bind (body x) (fun _ => for_each xs' body)
  end.

(** [m] leaves the part [f] of the state as it found it, whether it
    returns or raises. *)
Definition keeps {St A X} (f : St -> X) (m : M St A) : Prop :=
  forall s, f (m s).2 = f s.

(** [seq[i]], raising [IndexError] out of range (non-negative [i] only). *)
Definition index {A} (xs : list A) (i : nat) : result A :=
  match xs !! i with
  | Some x => Ok x
  | None => Raise IndexError
  end.

(** *** Strings *)

Definition tab : ascii := ascii_of_nat 9.
Definition newline : ascii := ascii_of_nat 10.

(** [s.partition(sep)] for a one-character separator. *)
Fixpoint partition (sep : ascii) (s : string) : string * string * string :=
  match s with
  | EmptyString => (EmptyString, EmptyString, EmptyString)
  | String c s' =>
      if Ascii.eqb c sep then (EmptyString, String sep EmptyString, s')
      else let '(h, m, t) := partition sep s' in (String c h, m, t)
  end.

(** [s.split(sep)] for a one-character separator: never empty. *)
Fixpoint split (sep : ascii) (s : string) : list string :=
  match s with
  | EmptyString => [EmptyString]
  | String c s' =>
      if Ascii.eqb c sep then EmptyString :: split sep s'
      else match split sep s' with
           | w :: ws => String c w :: ws
           | [] => [String c EmptyString]
           end
  end.

Definition isspace (c : ascii) : bool :=
  let n := nat_of_ascii c in
  (Nat.eqb n 32 || (Nat.leb 9 n && Nat.leb n 13))%bool.

(** [s.split()]: the maximal runs of non-blank characters. *)
Fixpoint split_ws (s : string) : list string :=
  match s with
  | EmptyString => []
  | String c s' =>
      if isspace c then split_ws s'
      else match s' with
           | EmptyString => [String c EmptyString]
           | String c' _ =>
               if isspace c' then String c EmptyString :: split_ws s'
               else match split_ws s' with
                    | w :: ws => String c w :: ws
                    | [] => [String c EmptyString]
                    end
           end
  end.

(** [s[1:-1]] and [s[:n]] *)
Definition slice_1_m1 (s : string) : string :=
  substring 1 (String.length s - 2) s.
Definition slice_to (n : nat) (s : string) : string := substring 0 n s.

End Py.

Export Py.

(** ** Objects shared by the node classes (core.coreobj, core.data) *)

Module coreobj.

(** Modelled from the spec: the per-interface parameter set (section 3,
    NetworkInterface), which [PyCoreNetIf] keeps in core.coreobj, outside
    nodes.py: a parameter set {delay, bandwidth, duplicate, jitter}, each
    value a number or unset.  nodes.py reads bandwidth under the key "bw". *)
Record Params : Type := {
  param_delay : option Z;
  param_bw : option Z;
  param_duplicate : option Z;
  param_jitter : option Z }.

#[global] Instance Params_eq_dec : EqDecision Params.
Proof. solve_decision. Defined.

(** The part of a node an interface refers to: identity and position. *)
Record PyCoreNode : Type := {
  objid : Z;
  position : Z * Z * Z }.

(** A position hook is a bound method of a wireless model; the model is
    identified by its name. *)
Record Callback : Type := { cb_model : string }.

#[global] Instance Callback_eq_dec : EqDecision Callback.
Proof. solve_decision. Defined.

(** Modelled from the spec: [PyCoreNetIf] (section 3, NetworkInterface),
    whose class is defined in core.coreobj, outside nodes.py: hardware
    address, ordered list of CIDR address strings, parameter set, optional
    position hook, and the owning node, which nodes.py tests against
    [None]. *)
Record PyCoreNetIf : Type := {
  name : string;
  node : option PyCoreNode;
  hwaddr : option string;
  addrlist : list string;
  _params : Params;
  poshook : option Callback }.

(** [netif.getparams()] *)
Definition getparams (netif : PyCoreNetIf) : Params := _params netif.

(** [netif.getparam(key)] *)
Definition getparam (netif : PyCoreNetIf) (key : string) : option Z :=
  if String.eqb key "delay" then param_delay (_params netif)
  else if String.eqb key "bw" then param_bw (_params netif)
  else if String.eqb key "duplicate" then param_duplicate (_params netif)
  else if String.eqb key "jitter" then param_jitter (_params netif)
  else None.

Inductive family : Type := AF_INET | AF_INET6.

(** [ipaddress.IpAddress(af, address)]: a family and the packed bytes. *)
Record IpAddress : Type := {
  af : family;
  addr : list Byte.byte }.

(** Modelled from the spec: the link record (section 6), whose declaration
    (core.data.LinkData) is outside nodes.py.  A field the constructor
    call does not name is [None]. *)
Record LinkData : Type := {
  message_type : option Z;
  node1_id : option Z;
  node2_id : option Z;
  link_type : option Z;
  unidirectional : option Z;
  delay : option Z;
  bandwidth : option Z;
  dup : option Z;
  jitter : option Z;
  interface1_id : option Z;
  interface1_mac : option string;
  interface1_ip4 : option IpAddress;
  interface1_ip4_mask : option Z;
  interface1_ip6 : option IpAddress;
  interface1_ip6_mask : option Z;
  interface2_id : option Z;
  interface2_mac : option string;
  interface2_ip4 : option IpAddress;
  interface2_ip4_mask : option Z;
  interface2_ip6 : option IpAddress;
  interface2_ip6_mask : option Z }.

(** What the methods call outside this file: the builtin [int], the socket
    library, [ipaddress.is_ipv4_address] and the owning node's
    [getifindex], which dispatches on the node's class. *)
Class Runtime : Type := {
  py_int : string -> result Z;
  is_ipv4_address : string -> bool;
  inet_pton : family -> string -> result (list Byte.byte);
  getifindex : PyCoreNode -> PyCoreNetIf -> option Z }.

(** [netif.node.objid] and friends: attribute access on [None] raises. *)
Definition node_of (netif : PyCoreNetIf) : result PyCoreNode :=
  match node netif with
  | Some n => Ok n
  | None => Raise AttributeError
  end.

End coreobj.

Export coreobj.

(** ** The bridge base (core.netns.vnet.LxBrNet) *)

Module LxBrNet.

(** The attributes of a bridge network that the subclasses below read:
    the registry of attached interfaces, in the order [items()] yields
    them, and the link type tag. *)
Record t : Type := {
  objid : Z;
  _netif : list (Z * PyCoreNetIf);
  linktype : Z }.

(** The base class methods the subclasses delegate to; their bodies are
    in core.netns.vnet, outside nodes.py. *)
Class Base : Type := {
  attach : PyCoreNetIf -> M t unit }.

End LxBrNet.

(** ** PtpNet *)

Module PtpNet.

Section PtpNet.
Context {RT : Runtime} {B : LxBrNet.Base}.

(** def attach(self, netif) *)
Definition attach (netif : PyCoreNetIf) : M LxBrNet.t unit :=
  self ← get;
  if (2 <=? Z.of_nat (length (LxBrNet._netif self)))
  then raise (ValueError "Point-to-point links support at most 2 network interfaces")
  else LxBrNet.attach netif.

(** The four locals one address loop of [all_link_data] assigns. *)
Record addrs : Type := {
  ip4 : option IpAddress;
  ip4_mask : option Z;
  ip6 : option IpAddress;
  ip6_mask : option Z }.

Definition no_addrs : addrs :=
  {| ip4 := None; ip4_mask := None; ip6 := None; ip6_mask := None |}.

(** The body of [for address in netif.addrlist]. *)
Definition scan_address (acc : addrs) (address : string) : result addrs :=
  let '(ip, sep, mask) := Py.partition "/" address in
  mask ← py_int mask;
  if is_ipv4_address ip then
    ipl ← inet_pton AF_INET ip;
    mret {| ip4 := Some {| af := AF_INET; addr := ipl |};
            ip4_mask := Some mask;
            ip6 := ip6 acc; ip6_mask := ip6_mask acc |}
  else
    ipl ← inet_pton AF_INET6 ip;
    mret {| ip4 := ip4 acc; ip4_mask := ip4_mask acc;
            ip6 := Some {| af := AF_INET6; addr := ipl |};
            ip6_mask := Some mask |}.

Fixpoint scan_addrlist (acc : addrs) (l : list string) : result addrs :=
  match l with
  | [] => mret acc
  | address :: l' => acc' ← scan_address acc address; scan_addrlist acc' l'
  end.

(** def all_link_data(self, flags) *)
Definition all_link_data (self : LxBrNet.t) (flags : Z) : result (list LinkData) :=
  let all_links : list LinkData := [] in
  if negb (Z.of_nat (length (LxBrNet._netif self)) =? 2) then mret all_links else
  (* if1, if2 = self._netif.items(): unpacking anything but two items raises *)
  match LxBrNet._netif self with
  | [(_, if1); (_, if2)] =>
      let unidirectional :=
        if decide (getparams if1 <> getparams if2) then 1 else 0 in
      a1 ← scan_addrlist no_addrs (addrlist if1);
      a2 ← scan_addrlist no_addrs (addrlist if2);
      n1 ← node_of if1;
      n2 ← node_of if2;
      let link_data :=
        {| message_type := Some flags;
           node1_id := Some (objid n1);
           node2_id := Some (objid n2);
           link_type := Some (LxBrNet.linktype self);
           unidirectional := Some unidirectional;
           delay := getparam if1 "delay";
           bandwidth := getparam if1 "bw";
           dup := getparam if1 "duplicate";
           jitter := getparam if1 "jitter";
           interface1_id := getifindex n1 if1;
           interface1_mac := hwaddr if1;
           interface1_ip4 := ip4 a1;
           interface1_ip4_mask := ip4_mask a1;
           interface1_ip6 := ip6 a1;
           interface1_ip6_mask := ip6_mask a1;
           interface2_id := getifindex n2 if2;
           interface2_mac := hwaddr if2;
           interface2_ip4 := ip4 a2;
           interface2_ip4_mask := ip4_mask a2;
           interface2_ip6 := ip6 a2;
           interface2_ip6_mask := ip6_mask a2 |} in
      let all_links := all_links ++ [link_data] in
      if negb (unidirectional =? 0) then
        let link_data :=
          {| message_type := Some 0;
             node1_id := Some (objid n2);
             node2_id := Some (objid n1);
             link_type := None;
             unidirectional := Some 1;
             delay := getparam if1 "delay";
             bandwidth := getparam if1 "bw";
             dup := getparam if1 "duplicate";
             jitter := getparam if1 "jitter";
             interface1_id := getifindex n2 if2;
             interface1_mac := None;
             interface1_ip4 := None;
             interface1_ip4_mask := None;
             interface1_ip6 := None;
             interface1_ip6_mask := None;
             interface2_id := getifindex n1 if1;
             interface2_mac := None;
             interface2_ip4 := None;
             interface2_ip4_mask := None;
             interface2_ip6 := None;
             interface2_ip6_mask := None |} in
        mret (all_links ++ [link_data])
      else mret all_links
  | _ => Raise (ValueError "need exactly 2 values to unpack")
  end.

(** *** What the address loop computes

    The address, family and mask one address string denotes, the last
    entry of a family in a decoded list, and the interfaces on which
    [all_link_data] runs to completion: those with an owning node whose
    address strings all decode. *)

Definition decode (address : string) : result (IpAddress * Z) :=
  let '(ip, sep, mask) := Py.partition "/" address in
  mask ← py_int mask;
  let family := if is_ipv4_address ip then AF_INET else AF_INET6 in
  ipl ← inet_pton family ip;
  mret ({| af := family; addr := ipl |}, mask).

Definition is_family (f : family) (d : IpAddress * Z) : bool :=
  match f, af d.1 with
  | AF_INET, AF_INET | AF_INET6, AF_INET6 => true
  | _, _ => false
  end.

Definition last_of (f : family) (ds : list (IpAddress * Z)) : option (IpAddress * Z) :=
  last (List.filter (is_family f) ds).

(** Storing one decoded address: what an iteration does to the locals. *)
Definition store (acc : addrs) (d : IpAddress * Z) : addrs :=
  match af d.1 with
  | AF_INET =>
      {| ip4 := Some d.1; ip4_mask := Some d.2;
         ip6 := ip6 acc; ip6_mask := ip6_mask acc |}
  | AF_INET6 =>
      {| ip4 := ip4 acc; ip4_mask := ip4_mask acc;
         ip6 := Some d.1; ip6_mask := Some d.2 |}
  end.

Definition is_ok {A} (r : result A) : bool :=
  match r with Ok _ => true | Raise _ => false end.

Definition describable (netif : PyCoreNetIf) : bool :=
  match node netif with Some _ => true | None => false end
  && forallb (fun address => is_ok (decode address)) (addrlist netif).

End PtpNet.

End PtpNet.

(** ** The host command gateway (subprocess, utils) *)

Module constants.

(** The paths of the host tools (core.constants), fixed when the package
    is configured. *)
Class t : Type := {
  BRCTL_BIN : string;
  IP_BIN : string;
  TC_BIN : string }.

End constants.

Export constants.

Module subprocess.

(** A host [W] runs a command line to completion: [None] when the program
    cannot be spawned, else its exit status and what it printed. *)
Class Host (W : Type) : Type := {
  exec : list string -> W -> option (Z * string) * W }.

Section subprocess.
Context {Self W : Type} {H : Host W}.

(** Run [args] and hand back the raw outcome; the object is not touched. *)
Definition spawn (args : list string) : M (Self * W) (option (Z * string)) :=
  fun '(self, w) => let '(r, w') := exec args w in (Ok r, (self, w')).

(** subprocess.check_call(args) *)
Definition check_call (args : list string) : M (Self * W) unit :=
  r ← spawn args;
  match r with
  | None => raise OSError
  | Some (status, _) =>
      if status =? 0 then mret tt else raise CalledProcessError
  end.

(** utils.cmdresult(args): exit status and output. *)
Definition cmdresult (args : list string) : M (Self * W) (Z * string) :=
  r ← spawn args;
  match r with
  | None => raise OSError
  | Some (status, result) => mret (status, result)
  end.

(** utils.mutecall(args): the status is returned, the output dropped. *)
Definition mutecall (args : list string) : M (Self * W) Z :=
  r ← spawn args;
  match r with
  | None => raise OSError
  | Some (status, _) => mret status
  end.

(** Reading and writing [self] inside a method. *)
Definition getself : M (Self * W) Self := fun s => (Ok (fst s), s).
Definition setself (f : Self -> Self) : M (Self * W) unit :=
  fun s => (Ok tt, (f (fst s), snd s)).

End subprocess.

Definition is_CalledProcessError (e : exn) : bool :=
  match e with CalledProcessError => true | _ => false end.

End subprocess.

Export subprocess.

(** ** CtrlNet *)

Module CtrlNet.

(** What the code uses of an [ipaddress.Ipv4Prefix]: the address of a host
    id (which raises on an id outside the prefix), the highest address and
    the prefix length. *)
Record Ipv4Prefix : Type := {
  prefix_addr : Z -> result string;
  max_addr : string;
  prefixlen : Z }.

Record t : Type := {
  objid : string;
  brname : string;
  prefix : Ipv4Prefix;
  hostid : option Z;
  assign_address : bool;
  updown_script : option string;
  serverintf : option string }.

(** The inherited methods [startup] calls; their bodies are in
    core.netns.vnet, outside nodes.py. *)
Class Base (W : Type) : Type := {
  LxBrNet_startup : M (t * W) unit;
  addrconfig : list string -> M (t * W) unit }.

(** The body of [for line in lines[1:]] with its early [return True]. *)
Fixpoint scan_bridges (objid : string) (lines : list string) : result bool :=
  match lines with
  | [] => Ok false
  | line :: lines' =>
      let cols := Py.split Py.tab line in
      oldbr ← Py.index cols 0;
      let flds := Py.split "." oldbr in
      match flds with
      | [f0; f1; _] =>
          if (String.eqb f0 "b" && String.eqb f1 objid)%bool then Ok true
          else scan_bridges objid lines'
      | _ => scan_bridges objid lines'
      end
  end.

Section CtrlNet.
Context {W : Type} {H : Host W} {K : constants.t} {B : Base W}.

(** def detectoldbridge(self); the logger calls leave no trace in the model. *)
Definition detectoldbridge : M (t * W) bool :=
  '(retstat, retstr) ← cmdresult [BRCTL_BIN; "show"];
  let lines := Py.split Py.newline retstr in
  self ← getself;
  lift (scan_bridges (objid self) (tail lines)).

(** Python truth of [self.hostid]: [None] and [0] are false. *)
Definition truthy (z : option Z) : bool :=
  match z with Some n => negb (n =? 0) | None => false end.

(** def startup(self) *)
Definition startup : M (t * W) unit :=
  old ← detectoldbridge;
  if (old : bool) then mret tt else
  LxBrNet_startup;;
  self ← getself;
  addr ← lift (if truthy (hostid self)
               then prefix_addr (prefix self) (default 0 (hostid self))
               else Ok (max_addr (prefix self)));
  let addrlist := [addr +:+ "/" +:+ pretty (prefixlen (prefix self))] in
  (if assign_address self then addrconfig addrlist else mret tt);;
  match updown_script self with
  | Some script => check_call [script; brname self; "startup"]
  | None => mret tt
  end;;
  match serverintf self with
  | Some intf =>
      try_except
        (check_call [BRCTL_BIN; "addif"; brname self; intf];;
         check_call [IP_BIN; "link"; "set"; intf; "up"])
        is_CalledProcessError
        (mret tt)
  | None => mret tt
  end.

End CtrlNet.

(** *** Reading the bridge listing

    The bridges a listing enumerates (the first column of every line after
    the header line), a name of the shape <prefix>.<objid>.<suffix>, and
    such a name with the prefix the bridge base gives its bridges. *)

Definition bridges (retstr : string) : list string :=
  (fun line => hd "" (Py.split Py.tab line)) <$> tail (Py.split Py.newline retstr).

Definition names_id (objid name : string) : Prop :=
  exists prefix suffix, Py.split "." name = [prefix; objid; suffix].

Definition names_bridge_of (objid name : string) : Prop :=
  exists suffix, Py.split "." name = ["b"; objid; suffix].

End CtrlNet.

(** ** WlanNode *)

Module WlanNode.

(** Modelled from the spec: the configuration kind a model class declares
    (core.enumerations.RegisterTlvs, outside nodes.py): wireless-class,
    mobility-class, or some other kind. *)
Inductive RegisterTlvs : Type :=
| WIRELESS
| MOBILITY
| OTHER (value : Z).

#[global] Instance RegisterTlvs_eq_dec : EqDecision RegisterTlvs.
Proof. solve_decision. Defined.

(** A bound model as the WLAN sees it: its name, its configuration kind,
    its position callback (a model may have none) and the configuration
    it currently holds. *)
Record Model (Values : Type) : Type := {
  name : string;
  config_type : RegisterTlvs;
  position_callback : option Callback;
  values : Values }.
Arguments name {Values} _.
Arguments config_type {Values} _.
Arguments position_callback {Values} _.
Arguments values {Values} _.

(** A model class, called as [model(session, object_id, values)]. *)
Record ModelClass : Type := {
  cls_name : string;
  cls_config_type : RegisterTlvs;
  cls_position_callback : option Callback }.

(** The calls the WLAN makes into a model, in the order it makes them.
    What the model does when called is the model's own code; the WLAN's
    part is that the call is made, and with which arguments. *)
Inductive Call : Type :=
| call_poshook (hook : Callback) (netif : PyCoreNetIf) (x y z : Z)
| call_setlinkparams (model : string).

Record t (Values : Type) : Type := {
  objid : Z;
  _netif : list (Z * PyCoreNetIf);
  model : option (Model Values);
  mobility : option (Model Values);
  calls : list Call }.
Arguments objid {Values} _.
Arguments _netif {Values} _.
Arguments model {Values} _.
Arguments mobility {Values} _.
Arguments calls {Values} _.

(** [model.updateconfig(values)] is the model's own code: whether it takes
    the update, and the configuration it holds afterwards. *)
Class ModelCode (Values : Type) : Type := {
  updateconfig : Model Values -> Values -> bool * Values }.

Section WlanNode.
Context {Values : Type} {MC : ModelCode Values}.

Definition set_poshook (hook : option Callback) (netif : PyCoreNetIf) : PyCoreNetIf :=
  {| coreobj.name := coreobj.name netif; node := node netif;
     hwaddr := hwaddr netif; addrlist := addrlist netif;
     _params := _params netif; poshook := hook |}.

Definition with_netif (l : list (Z * PyCoreNetIf)) (self : t Values) : t Values :=
  {| objid := objid self; _netif := l; model := model self;
     mobility := mobility self; calls := calls self |}.
Definition with_model (m : option (Model Values)) (self : t Values) : t Values :=
  {| objid := objid self; _netif := _netif self; model := m;
     mobility := mobility self; calls := calls self |}.
Definition with_mobility (m : option (Model Values)) (self : t Values) : t Values :=
  {| objid := objid self; _netif := _netif self; model := model self;
     mobility := m; calls := calls self |}.
(** The loop [for netif in self.netifs()] of [setmodel] and [updatemodel]:
    the hook is stored on every interface and, for an interface that has
    an owning node, called with that node's position.  The result is the
    registry after the loop and the hook calls it made, in order. *)
Fixpoint wire_netifs (hook : Callback) (l : list (Z * PyCoreNetIf))
    : list (Z * PyCoreNetIf) * list Call :=
  match l with
  | [] => ([], [])
  | (ifindex, netif) :: l' =>
      let netif := set_poshook (Some hook) netif in
      let invoked :=
        match node netif with
        | Some n => let '(x, y, z) := position n in [call_poshook hook netif x y z]
        | None => []
        end in
      let '(l'', cs) := wire_netifs hook l' in
      ((ifindex, netif) :: l'', invoked ++ cs)
  end.

Definition record_calls (cs : list Call) (self : t Values) : t Values :=
  {| objid := objid self; _netif := _netif self; model := model self;
     mobility := mobility self; calls := calls self ++ cs |}.

(** [self.model.setlinkparams()] *)
Definition setlinkparams (m : Model Values) : M (t Values) unit :=
  modify (record_calls [call_setlinkparams (name m)]).

(** The wiring step shared by [setmodel] and [updatemodel]. *)
Definition wire_model (m : Model Values) : M (t Values) unit :=
  match position_callback m with
  | Some hook =>
      self ← get;
      let '(l, cs) := wire_netifs hook (_netif self) in
      put (record_calls cs (with_netif l self))
  | None => mret tt
  end;;
  setlinkparams m.

(** def setmodel(self, model, config) *)
Definition setmodel (cls : ModelClass) (config : Values) : M (t Values) unit :=
  let instance :=
    {| name := cls_name cls; config_type := cls_config_type cls;
       position_callback := cls_position_callback cls; values := config |} in
  if decide (cls_config_type cls = WIRELESS) then
    modify (with_model (Some instance));;
    wire_model instance
  else if decide (cls_config_type cls = MOBILITY) then
    modify (with_mobility (Some instance))
  else mret tt.

(** def updatemodel(self, model_name, values) *)
Definition updatemodel (model_name : string) (vals : Values) : M (t Values) unit :=
  self ← get;
  match model self with
  | None => mret tt
  | Some m =>
      if negb (String.eqb (name m) model_name) then mret tt else
      if decide (config_type m = WIRELESS) then
        let '(accepted, vals') := updateconfig m vals in
        let m' := {| name := name m; config_type := config_type m;
                     position_callback := position_callback m;
                     values := vals' |} in
        modify (with_model (Some m'));;
        if negb accepted then mret tt else
        wire_model m'
      else mret tt
  end.

(** *** What the wiring step leaves behind

    The registry with [hook] stored on every interface, and the hook calls
    the interfaces receive: one for each interface that has an owning node,
    in registry order, with that node's position. *)

Definition hooked (hook : Callback) (l : list (Z * PyCoreNetIf))
    : list (Z * PyCoreNetIf) :=
  (fun e => (e.1, set_poshook (Some hook) e.2)) <$> l.

Definition invocation (hook : Callback) (netif : PyCoreNetIf) : list Call :=
  match node netif with
  | Some n =>
      [call_poshook hook (set_poshook (Some hook) netif)
         (position n).1.1 (position n).1.2 (position n).2]
  | None => []
  end.

Definition invocations (hook : Callback) (l : list (Z * PyCoreNetIf)) : list Call :=
  l ≫= (fun e => invocation hook e.2).

Definition with_values (v : Values) (m : Model Values) : Model Values :=
  {| name := name m; config_type := config_type m;
     position_callback := position_callback m; values := v |}.

End WlanNode.

End WlanNode.

(** ** RJ45Node *)

Module RJ45Node.

(** The node is its own interface: [_netif] maps an interface index to the
    object stored there (always this node, named by its id), [node] is the
    interface's owner, and [net] is the attached network, named by its id.
    [old_up] and [old_addrs] are the snapshot [savestate] takes. *)
Record t : Type := {
  objid : Z;
  name : string;
  localname : string;
  up : bool;
  net : option Z;
  _netif : gmap Z Z;
  node : option Z;
  ifindex : option Z;
  addrlist : list string;
  old_up : bool;
  old_addrs : list (string * option string) }.

Definition with_up (b : bool) (r : t) : t :=
  {| objid := objid r; name := name r; localname := localname r; up := b;
     net := net r; _netif := _netif r; node := node r; ifindex := ifindex r;
     addrlist := addrlist r; old_up := old_up r; old_addrs := old_addrs r |}.
Definition with_net (n : option Z) (r : t) : t :=
  {| objid := objid r; name := name r; localname := localname r; up := up r;
     net := n; _netif := _netif r; node := node r; ifindex := ifindex r;
     addrlist := addrlist r; old_up := old_up r; old_addrs := old_addrs r |}.
Definition with_netif (m : gmap Z Z) (r : t) : t :=
  {| objid := objid r; name := name r; localname := localname r; up := up r;
     net := net r; _netif := m; node := node r; ifindex := ifindex r;
     addrlist := addrlist r; old_up := old_up r; old_addrs := old_addrs r |}.
Definition with_node (n : option Z) (r : t) : t :=
  {| objid := objid r; name := name r; localname := localname r; up := up r;
     net := net r; _netif := _netif r; node := n; ifindex := ifindex r;
     addrlist := addrlist r; old_up := old_up r; old_addrs := old_addrs r |}.
Definition with_ifindex (i : option Z) (r : t) : t :=
  {| objid := objid r; name := name r; localname := localname r; up := up r;
     net := net r; _netif := _netif r; node := node r; ifindex := i;
     addrlist := addrlist r; old_up := old_up r; old_addrs := old_addrs r |}.
Definition with_addrlist (l : list string) (r : t) : t :=
  {| objid := objid r; name := name r; localname := localname r; up := up r;
     net := net r; _netif := _netif r; node := node r; ifindex := ifindex r;
     addrlist := l; old_up := old_up r; old_addrs := old_addrs r |}.
Definition with_old_up (b : bool) (r : t) : t :=
  {| objid := objid r; name := name r; localname := localname r; up := up r;
     net := net r; _netif := _netif r; node := node r; ifindex := ifindex r;
     addrlist := addrlist r; old_up := b; old_addrs := old_addrs r |}.
Definition with_old_addrs (l : list (string * option string)) (r : t) : t :=
  {| objid := objid r; name := name r; localname := localname r; up := up r;
     net := net r; _netif := _netif r; node := node r; ifindex := ifindex r;
     addrlist := addrlist r; old_up := old_up r; old_addrs := l |}.

(** [net.attach(netif)] on the network being attached to: it dispatches on
    the network's class and acts on the world, not on this node. *)
Class Networks (W : Type) : Type := {
  net_attach : Z -> Z -> W -> result unit * W }.

Section RJ45Node.
Context {W : Type} {H : Host W} {K : constants.t} {N : Networks W}.

(** def restorestate(self) *)
Definition restorestate : M (t * W) unit :=
  self ← getself;
  for_each (old_addrs self) (fun addr =>
    self ← getself;
    match addr.2 with
    | None =>
        check_call [IP_BIN; "addr"; "add"; addr.1; "dev"; localname self]
    | Some brd =>
        check_call [IP_BIN; "addr"; "add"; addr.1; "brd"; brd; "dev"; localname self]
    end);;
  self ← getself;
  if old_up self
  then check_call [IP_BIN; "link"; "set"; localname self; "up"]
  else mret tt.

(** The body of [for l in lines.split('\n')] in [savestate]. *)
Definition savestate_line (l : string) : M (t * W) unit :=
  self ← getself;
  let items := Py.split_ws l in
  if (length items <? 2)%nat then mret tt else
  i0 ← lift (Py.index items 0);
  i1 ← lift (Py.index items 1);
  if String.eqb i1 (localname self +:+ ":") then
    i2 ← lift (Py.index items 2);
    let flags := Py.split "," (Py.slice_1_m1 i2) in
    if bool_decide ("UP" ∈ flags) then setself (with_old_up true) else mret tt
  else if String.eqb i0 "inet" then
    i3 ← lift (Py.index items 3);
    setself (fun r => with_old_addrs (old_addrs r ++ [(i1, Some i3)]) r)
  else if String.eqb i0 "inet6" then
    if String.eqb (Py.slice_to 4 i1) "fe80" then mret tt
    else setself (fun r => with_old_addrs (old_addrs r ++ [(i1, None)]) r)
  else mret tt.

(** def savestate(self).  When [Popen] raises [OSError] the handler only
    logs, and the next statement reads the unbound [tmp]. *)
Definition savestate : M (t * W) unit :=
  setself (with_old_up false);;
  setself (with_old_addrs []);;
  self ← getself;
  let cmd := [IP_BIN; "addr"; "show"; "dev"; localname self] in
  tmp ← spawn cmd;
  match tmp with
  | None => raise UnboundLocalError
  | Some (status, lines) =>
      if negb (status =? 0) then mret tt else
      for_each (Py.split Py.newline lines) savestate_line
  end.

(** def startup(self) *)
Definition startup : M (t * W) unit :=
  savestate;;
  try_except
    (self ← getself;
     check_call [IP_BIN; "link"; "set"; localname self; "up"];;
     setself (with_up true))
    is_CalledProcessError
    (mret tt).

(** def shutdown(self) *)
Definition shutdown : M (t * W) unit :=
  self ← getself;
  if negb (up self) then mret tt else
  check_call [IP_BIN; "link"; "set"; localname self; "down"];;
  check_call [IP_BIN; "addr"; "flush"; "dev"; localname self];;
  mutecall [TC_BIN; "qdisc"; "del"; "dev"; localname self; "root"];;
  setself (with_up false);;
  restorestate.

(** Modelled from the spec: [PyCoreNetIf.attachnet], outside nodes.py
    (section 3: the interface keeps a back-reference to the network it is
    attached to, and the network an attachment reference): the network
    attaches the interface, then the back-reference is set. *)
Definition attachnet (n : Z) : M (t * W) unit :=
  self ← getself;
  (fun '(r, w) => let '(res, w') := net_attach n (objid self) w in (res, (r, w')));;
  setself (with_net (Some n)).

(** def addaddr(self, addr); [PyCoreNetIf.addaddr] appends to the address
    list (section 4.5: the in-memory list is updated regardless). *)
Definition addaddr (addr : string) : M (t * W) unit :=
  self ← getself;
  (if up self
   then check_call [IP_BIN; "addr"; "add"; addr; "dev"; name self]
   else mret tt);;
  setself (fun r => with_addrlist (addrlist r ++ [addr]) r).

(** def newnetif(self, net=None, addrlist=None, hwaddr=None, ifindex=None,
    ifname=None); [utils.maketuple] of a list is its elements, and the
    lock the body runs under has no effect on a single caller. *)
Definition newnetif (net_ : option Z) (addrlist_ : option (list string))
    (hwaddr : option string) (ifindex_ : option Z) (ifname : option string)
    : M (t * W) Z :=
  let ifindex_ := default 0 ifindex_ in
  self ← getself;
  if bool_decide (net self <> None)
  then raise (ValueError "RJ45 nodes support at most 1 network interface")
  else
    setself (fun r => with_netif (<[ifindex_ := objid r]> (_netif r)) r);;
    setself (fun r => with_node (Some (objid r)) r);;
    setself (with_ifindex (Some ifindex_));;
    match net_ with
    | Some n => attachnet n
    | None => mret tt
    end;;
    match addrlist_ with
    | Some (addr :: l) => for_each (addr :: l) addaddr
    | _ => mret tt
    end;;
    mret ifindex_.

(** def delnetif(self, ifindex) *)
Definition delnetif (ifindex_ : option Z) : M (t * W) unit :=
  let ifindex_ := default 0 ifindex_ in
  self ← getself;
  if bool_decide (_netif self !! ifindex_ = None)
  then raise (ValueError ("ifindex " +:+ pretty ifindex_ +:+ " does not exist"))
  else
    setself (fun r => with_netif (delete ifindex_ (_netif r)) r);;
    self ← getself;
    if bool_decide (Some ifindex_ = ifindex self)
    then shutdown
    else raise (ValueError ("ifindex " +:+ pretty ifindex_ +:+ " does not exist")).

(** *** The life of a node

    A node as [__init__] leaves it before [startup], the calls that drive
    it when every [newnetif] is given a network, and the states those calls
    can reach.  A call that raises still moves the node to the state it
    left behind. *)

Definition fresh (r : t) : Prop :=
  up r = false /\ net r = None /\ _netif r = ∅ /\ ifindex r = None.

Inductive step : t * W -> t * W -> Prop :=
| step_newnetif n addrlist_ hwaddr ifindex_ ifname s :
    step s (newnetif (Some n) addrlist_ hwaddr ifindex_ ifname s).2
| step_delnetif ifindex_ s :
    step s (delnetif ifindex_ s).2
| step_startup s :
    step s (startup s).2
| step_shutdown s :
    step s (shutdown s).2.

Definition reachable (s : t * W) : Prop :=
  exists s0, fresh s0.1 /\ rtc step s0 s.

(** The part of the node that [newnetif] and [delnetif] manage. *)
Definition attachment (r : t) : option Z * gmap Z Z * option Z :=
  (net r, _netif r, ifindex r).

(** What taking a snapshot has no business changing. *)
Definition beside_snapshot (r : t) : option Z * gmap Z Z * option Z * bool * string :=
  (attachment r, up r, localname r).

(** The registry holds no index but the node's own, and a registered node
    has its network. *)
Definition single_key (r : t) : Prop :=
  (forall i, is_Some (_netif r !! i) -> ifindex r = Some i)
  /\ (_netif r <> ∅ -> net r <> None).

(** While the host is [steady] it takes every address added to [dev] and
    stays steady; the networks take every interface. *)
Definition accepts_addresses (steady : W -> Prop) (dev : string) : Prop :=
  forall addr w, steady w -> exists out w',
    exec [IP_BIN; "addr"; "add"; addr; "dev"; dev] w = (Some (0, out), w')
    /\ steady w'.

(** The host after the addresses [l] have been added to [dev], in order. *)
Definition applied (dev : string) (l : list string) (w : W) : W :=
  fold_left (fun w addr => (exec [IP_BIN; "addr"; "add"; addr; "dev"; dev] w).2) l w.

Definition networks_accept : Prop :=
  forall n i w, exists w', net_attach n i w = (Ok tt, w').

(** The command line [restorestate] runs for one captured address. *)
Definition readd (dev : string) (a : string * option string) : list string :=
  match a.2 with
  | None => [IP_BIN; "addr"; "add"; a.1; "dev"; dev]
  | Some brd => [IP_BIN; "addr"; "add"; a.1; "brd"; brd; "dev"; dev]
  end.

End RJ45Node.

End RJ45Node.

(** ** A host with one network card

    The environment the passthrough node runs against: one card with an
    administrative state and a list of addresses, each with its broadcast
    address if it has one.  The card obeys the command forms of section 6
    when they name it and fails them (status 1) otherwise; every command
    line it is given is kept in [history].  How the card is listed by
    [ip addr show] is left to [addr_show]. *)

Module Nic.

Record t : Type := {
  name : string;
  up : bool;
  addrs : list (string * option string);
  history : list (list string) }.

Class Listing : Type := {
  addr_show : t -> string }.

Definition with_up (b : bool) (n : t) : t :=
  {| name := name n; up := b; addrs := addrs n; history := history n |}.
Definition with_addrs (l : list (string * option string)) (n : t) : t :=
  {| name := name n; up := up n; addrs := l; history := history n |}.
Definition logged (args : list string) (n : t) : t :=
  {| name := name n; up := up n; addrs := addrs n;
     history := history n ++ [args] |}.

Section Nic.
Context {K : constants.t} {L : Listing}.

(** What [ip] does with its arguments: exit status, output, card. *)
Definition ip (args : list string) (n : t) : Z * string * t :=
  if decide (args = ["link"; "set"; name n; "up"]) then (0, "", with_up true n)
  else if decide (args = ["link"; "set"; name n; "down"]) then (0, "", with_up false n)
  else if decide (args = ["addr"; "flush"; "dev"; name n]) then (0, "", with_addrs [] n)
  else if decide (args = ["addr"; "show"; "dev"; name n]) then (0, addr_show n, n)
  else match args with
       | [a1; a2; address; a3; dev] =>
           if decide ([a1; a2; a3; dev] = ["addr"; "add"; "dev"; name n])
           then (0, "", with_addrs (addrs n ++ [(address, None)]) n)
           else (1, "", n)
       | [a1; a2; address; a3; brd; a4; dev] =>
           if decide ([a1; a2; a3; a4; dev] = ["addr"; "add"; "brd"; "dev"; name n])
           then (0, "", with_addrs (addrs n ++ [(address, Some brd)]) n)
           else (1, "", n)
       | _ => (1, "", n)
       end.

(** The host: [ip] as above, [tc] accepted without effect on the card,
    any other program cannot be spawned. *)
Definition run (args : list string) (n : t) : option (Z * string) * t :=
  let n := logged args n in
  match args with
  | bin :: args' =>
      if String.eqb bin IP_BIN then
        let '(status, out, n') := ip args' n in (Some (status, out), n')
      else if String.eqb bin TC_BIN then (Some (0, ""), n)
      else (None, n)
  | [] => (None, n)
  end.

#[global] Instance host : Host t := {| exec := run |}.

End Nic.

(** An address the snapshot skips: the test the source applies to the
    [inet6] lines, whose entries have no broadcast address. *)
Definition link_local (a : string * option string) : bool :=
  match a.2 with
  | None => String.eqb (Py.slice_to 4 a.1) "fe80"
  | Some _ => false
  end.

Definition routable (l : list (string * option string))
    : list (string * option string) :=
  List.filter (fun a => negb (link_local a)) l.


End Nic.

(** ** What [ip addr show] prints

    The listing of one device in the layout of iproute2: a header line
    with the device name and its flags, the link line, and one line for
    every address, an [inet] line for an address with a broadcast address
    and an [inet6] line for one without.  What the listing holds besides
    the state of the card is its [Layout]. *)

Module Iproute2.




Record Layout : Type := {
  index : string;
  flags : list string;
  settings : list string;
  mac : string;
  mac_brd : string }.

(** Every line ends with a newline. *)
Definition unlines (ls : list string) : string :=
  String.concat (String Py.newline "") (ls ++ [""]).

(** The fields of the three kinds of line. *)
Definition header_words (p : Layout) (dev : string) : list string :=
  [index p; dev +:+ ":"; "<" +:+ String.concat "," (flags p) +:+ ">"]
    ++ settings p.

Definition link_words (p : Layout) : list string :=
  ["link/ether"; mac p; "brd"; mac_brd p].

Definition address_words (dev : string) (a : string * option string)
    : list string :=
  match a.2 with
  | Some brd => ["inet"; a.1; "brd"; brd; "scope"; "global"; dev]
  | None => ["inet6"; a.1; "scope"; "global"]
  end.

Definition header (p : Layout) (dev : string) : string :=
  String.concat " " (header_words p dev).

Definition link_line (p : Layout) : string :=
  "    " +:+ String.concat " " (link_words p).

Definition address_line (dev : string) (a : string * option string) : string :=
  "    " +:+ String.concat " " (address_words dev a).

Definition listing (p : Layout) (dev : string)
    (addrs : list (string * option string)) : string :=
  unlines (header p dev :: link_line p :: (address_line dev <$> addrs)).



End Iproute2.

(** ** A concrete environment

    One instance of every interface above, small enough to run, on which
    the statements below are exercised at concrete inputs. *)

Module Sample.

#[export] Instance paths : constants.t :=
  {| BRCTL_BIN := "/usr/sbin/brctl"; IP_BIN := "/sbin/ip"; TC_BIN := "/sbin/tc" |}.

Definition digit (base : Z) (c : ascii) : option Z :=
  let n := Z.of_nat (nat_of_ascii c) in
  let d := if (48 <=? n) && (n <=? 57) then n - 48
           else if (97 <=? n) && (n <=? 102) then n - 87
           else 99 in
  if d <? base then Some d else None.

Fixpoint number_from (base acc : Z) (s : string) : option Z :=
  match s with
  | EmptyString => Some acc
  | String c s' => d ← digit base c; number_from base (base * acc + d) s'
  end.

(** A non-empty run of digits in [base]. *)
Definition number (base : Z) (s : string) : option Z :=
  match s with
  | EmptyString => None
  | _ => number_from base 0 s
  end.

Definition byte_of (z : Z) : Byte.byte :=
  default Byte.x00 (Byte.of_N (Z.to_N z)).

(** Dotted quad: four decimal fields of at most 255. *)
Definition quad (s : string) : option (list Byte.byte) :=
  fields ← mapM (number 10) (Py.split "." s);
  if bool_decide (length fields = 4%nat ∧ Forall (fun z => z <= 255) fields)
  then Some (byte_of <$> fields) else None.

(** Eight colon-separated hexadecimal groups of at most 16 bits. *)
Definition groups (s : string) : option (list Byte.byte) :=
  fields ← mapM (number 16) (Py.split ":" s);
  if bool_decide (length fields = 8%nat ∧ Forall (fun z => z <= 65535) fields)
  then Some (fields ≫= (fun z => [byte_of (z / 256); byte_of (z mod 256)]))
  else None.

#[export] Instance runtime : Runtime :=
  {| py_int s :=
       match number 10 s with
       | Some z => Ok z
       | None => Raise (ValueError "invalid literal for int()")
       end;
     is_ipv4_address s := bool_decide (is_Some (quad s));
     inet_pton f s :=
       match (match f with AF_INET => quad s | AF_INET6 => groups s end) with
       | Some b => Ok b
       | None => Raise SocketError
       end;
     (* interfaces are named eth<index>; an unknown interface is -1 *)
     getifindex n netif :=
       Some (default (-1) (number 10 (substring 3 8 (coreobj.name netif)))) |}.

(** A bridge base that registers the interface under the next free index. *)
#[export] Instance bridge : LxBrNet.Base :=
  {| LxBrNet.attach netif :=
       modify (fun self =>
         {| LxBrNet.objid := LxBrNet.objid self;
            LxBrNet._netif :=
              LxBrNet._netif self ++ [(Z.of_nat (length (LxBrNet._netif self)), netif)];
            LxBrNet.linktype := LxBrNet.linktype self |}) |}.

(** A host for the control network: [brctl show] prints [listing], every
    other command succeeds, and all of them are kept in [commands]. *)
Record BridgeHost : Type := {
  listing : string;
  commands : list (list string) }.

#[export] Instance bridge_host : Host BridgeHost :=
  {| exec args w :=
       (Some (0, if decide (args = [BRCTL_BIN; "show"]) then listing w else ""),
        {| listing := listing w; commands := commands w ++ [args] |}) |}.

(** The inherited bridge start-up and address configuration, as the
    commands they would run. *)
#[export] Instance ctrl_base : CtrlNet.Base BridgeHost :=
  {| CtrlNet.LxBrNet_startup :=
       self ← getself;
       check_call [BRCTL_BIN; "addbr"; CtrlNet.brname self];
     CtrlNet.addrconfig addrlist :=
       self ← getself;
       for_each addrlist (fun a =>
         check_call [IP_BIN; "addr"; "add"; a; "dev"; CtrlNet.brname self]) |}.

(** [ip addr show] in the layout of iproute2. *)
Definition show_addr (dev : string) (a : string * option string) : string :=
  match a.2 with
  | Some brd => "    inet " +:+ a.1 +:+ " brd " +:+ brd +:+ " scope global " +:+ dev
  | None => "    inet6 " +:+ a.1 +:+ " scope global"
  end +:+ String Py.newline "".

#[export] Instance listing_iproute2 : Nic.Listing :=
  {| Nic.addr_show n :=
       "2: " +:+ Nic.name n +:+ ": <BROADCAST,MULTICAST"
         +:+ (if Nic.up n then ",UP,LOWER_UP" else "") +:+ "> mtu 1500 qdisc noop"
         +:+ String Py.newline ""
         +:+ "    link/ether 00:16:3e:00:00:01 brd ff:ff:ff:ff:ff:ff"
         +:+ String Py.newline ""
         +:+ String.concat "" (show_addr (Nic.name n) <$> Nic.addrs n) |}.


(** Networks that take every interface. *)
#[export] Instance open_networks {W} : RJ45Node.Networks W :=
  {| RJ45Node.net_attach _ _ w := (Ok tt, w) |}.

(** A model that takes every update. *)
#[export] Instance agreeable : WlanNode.ModelCode (list string) :=
  {| WlanNode.updateconfig _ vals := (true, vals) |}.

(** A control network with every optional step switched on, and two
    hosts: one with a bridge of a previous session of this network, one
    with a bridge that only resembles it. *)
Definition ctrlnet : CtrlNet.t :=
  {| CtrlNet.objid := "ctrlnet"; CtrlNet.brname := "b.ctrlnet.77";
     CtrlNet.prefix :=
       {| CtrlNet.prefix_addr z := Ok ("172.16.0." +:+ pretty z);
          CtrlNet.max_addr := "172.16.0.254"; CtrlNet.prefixlen := 24 |};
     CtrlNet.hostid := None; CtrlNet.assign_address := true;
     CtrlNet.updown_script := Some "/etc/core/updown";
     CtrlNet.serverintf := Some "eth9" |}.

Definition listing_of (bridge : string) : string :=
  "bridge name" +:+ String Py.tab "bridge id" +:+ String Py.newline ""
  +:+ bridge +:+ String Py.tab "8000.000000000000" +:+ String Py.newline "".

Definition stale_host : BridgeHost :=
  {| listing := listing_of "b.ctrlnet.41"; commands := [] |}.
Definition foreign_host : BridgeHost :=
  {| listing := listing_of "x.ctrlnet.41"; commands := [] |}.

(** A WLAN with a range model bound, one interface of a router and one
    interface that has no owning node. *)
Definition basic_range : WlanNode.Model (list string) :=
  {| WlanNode.name := "basic_range"; WlanNode.config_type := WlanNode.WIRELESS;
     WlanNode.position_callback := Some {| cb_model := "basic_range" |};
     WlanNode.values := ["range=275"] |}.

Definition tap : PyCoreNetIf :=
  {| coreobj.name := "gt0"; node := None; hwaddr := None; addrlist := [];
     _params := {| param_delay := None; param_bw := None;
                   param_duplicate := None; param_jitter := None |};
     poshook := None |}.

Definition wlan (l : list (Z * PyCoreNetIf)) : WlanNode.t (list string) :=
  {| WlanNode.objid := 3; WlanNode._netif := l;
     WlanNode.model := Some basic_range; WlanNode.mobility := None;
     WlanNode.calls := [] |}.

(** A passthrough node for the card eth0, not yet started, and the card:
    up, with one IPv4 address, one link-local and one global IPv6 address. *)
Definition rj45 : RJ45Node.t :=
  {| RJ45Node.objid := 9; RJ45Node.name := "eth0"; RJ45Node.localname := "eth0";
     RJ45Node.up := false; RJ45Node.net := None; RJ45Node._netif := ∅;
     RJ45Node.node := Some 9; RJ45Node.ifindex := None;
     RJ45Node.addrlist := []; RJ45Node.old_up := false;
     RJ45Node.old_addrs := [] |}.

Definition card : Nic.t :=
  {| Nic.name := "eth0"; Nic.up := true;
     Nic.addrs := [("10.0.0.5/24", Some "10.0.0.255");
                   ("fe80::216:3eff:fe00:1/64", None);
                   ("2001:db8::5/64", None)];
     Nic.history := [] |}.

(** Two routers joined by a point-to-point link. *)
Definition router (id : Z) : PyCoreNode :=
  {| coreobj.objid := id; position := (100 * id, 50, 0) |}.

Definition endpoint (ifname : string) (owner : Z) (addresses : list string)
    (delay_us : Z) : PyCoreNetIf :=
  {| coreobj.name := ifname; node := Some (router owner);
     hwaddr := Some "00:00:00:aa:00:01"; addrlist := addresses;
     _params := {| param_delay := Some delay_us; param_bw := Some 54000000;
                   param_duplicate := None; param_jitter := Some 0 |};
     poshook := None |}.

Definition eth0 : PyCoreNetIf :=
  endpoint "eth0" 1 ["10.0.0.1/24"; "10.0.1.1/16"; "2001:0:0:0:0:0:0:1/64"] 10.
Definition eth1_slow : PyCoreNetIf := endpoint "eth1" 2 ["10.0.0.2/24"] 50.
Definition eth1 : PyCoreNetIf := endpoint "eth1" 2 ["10.0.0.2/24"] 10.

Definition ptp (l : list (Z * PyCoreNetIf)) : LxBrNet.t :=
  {| LxBrNet.objid := 5; LxBrNet._netif := l; LxBrNet.linktype := 1 |}.

Definition unattached : LxBrNet.t := ptp [].
Definition asymmetric : LxBrNet.t := ptp [(0, eth0); (1, eth1_slow)].
Definition symmetric : LxBrNet.t := ptp [(0, eth0); (1, eth1)].

End Sample.

(** ** CtrlNet: the phases of startup, and shutdown *)

Module CtrlNetLife.

(** The inherited [shutdown]; its body is in core.netns.vnet, outside
    nodes.py. *)
Class BaseShutdown (W : Type) : Type := {
  LxBrNet_shutdown : M (CtrlNet.t * W) unit }.

Section CtrlNetLife.
Context {W : Type} {H : Host W} {K : constants.t} {B : CtrlNet.Base W}
  {BS : BaseShutdown W}.
Import CtrlNet.

(** [startup] from the base call to the updown script: the bridge is
    created, the address computed and (optionally) assigned, the script
    called.  It hands on the object as read after the base call. *)
Definition bring_up : M (t * W) t :=
  LxBrNet_startup;;
  self ← getself;
  addr ← lift (if truthy (hostid self)
               then prefix_addr (prefix self) (default 0 (hostid self))
               else Ok (max_addr (prefix self)));
  let addrlist := [addr +:+ "/" +:+ pretty (prefixlen (prefix self))] in
  (if assign_address self then addrconfig addrlist else mret tt);;
  match updown_script self with
  | Some script => check_call [script; brname self; "startup"]
  | None => mret tt
  end;;
  mret self.

(** The last statement of [startup]: joining the server interface. *)
Definition join_server (self : t) : M (t * W) unit :=
  match serverintf self with
  | Some intf =>
      try_except
        (check_call [BRCTL_BIN; "addif"; brname self; intf];;
         check_call [IP_BIN; "link"; "set"; intf; "up"])
        is_CalledProcessError
        (mret tt)
  | None => mret tt
  end.

(** The first statement of [shutdown]: taking the server interface out. *)
Definition detach_server : M (t * W) unit :=
  self ← getself;
  match serverintf self with
  | Some intf =>
      try_except
        (check_call [BRCTL_BIN; "delif"; brname self; intf])
        is_CalledProcessError
        (mret tt)
  | None => mret tt
  end.

(** def shutdown(self) *)
Definition shutdown : M (t * W) unit :=
  detach_server;;
  self ← getself;
  match updown_script self with
  | Some script => check_call [script; brname self; "shutdown"]
  | None => mret tt
  end;;
  LxBrNet_shutdown.

End CtrlNetLife.

End CtrlNetLife.

(** ** PtpNet: a series of attachments *)

Module PtpNetLife.

Section PtpNetLife.
Context {B : LxBrNet.Base}.

(** The network after [attach] has been called for each interface of [l]
    in turn, a call that raises leaving it as that call left it. *)
Definition attach_each (l : list PyCoreNetIf) (self : LxBrNet.t) : LxBrNet.t :=
  fold_left (fun self netif => (PtpNet.attach netif self).2) l self.

(** The base registers at most the interface it is given. *)
Definition base_adds_one : Prop :=
  forall netif self,
    (length (LxBrNet._netif (LxBrNet.attach netif self).2)
     <= S (length (LxBrNet._netif self)))%nat.

End PtpNetLife.

End PtpNetLife.

(** ** WlanNode: a series of model bindings and updates *)

Module WlanNodeLife.

Section WlanNodeLife.
Context {Values : Type} {MC : WlanNode.ModelCode Values}.
Import WlanNode.

Inductive step : t Values -> t Values -> Prop :=
| step_setmodel cls config self :
    step self (setmodel cls config self).2
| step_updatemodel model_name vals self :
    step self (updatemodel model_name vals self).2.

(** A WLAN as [__init__] leaves it has no model; the others are reached
    by [setmodel] and [updatemodel]. *)
Definition reachable (self : t Values) : Prop :=
  exists self0, model self0 = None /\ rtc step self0 self.

(** The object a model class returns when called with [config]. *)
Definition instance_of (cls : ModelClass) (config : Values) : Model Values :=
  {| name := cls_name cls; config_type := cls_config_type cls;
     position_callback := cls_position_callback cls; values := config |}.

(** Two registries that differ at most in the position hooks. *)
Definition same_but_hooks (l l' : list (Z * PyCoreNetIf)) : Prop :=
  Forall2 (fun e e' => e.1 = e'.1
                       /\ set_poshook None e.2 = set_poshook None e'.2) l l'.

End WlanNodeLife.

End WlanNodeLife.

(** ** RJ45Node: looking the interface up *)

Module RJ45NodeLookup.

Import RJ45Node.

(** def netif(self, ifindex, net=None): the node itself, named by its id,
    or [None]. *)
Definition netif (ifindex_ : option Z) (net_ : option Z) (self : t) : option Z :=
  if bool_decide (net_ <> None /\ net_ = net self) then Some (objid self)
  else
    let ifindex_ := default 0 ifindex_ in
    if bool_decide (Some ifindex_ = ifindex self) then Some (objid self)
    else None.

(** def getifindex(self, netif); [netif] is the id of the object asked
    about. *)
Definition getifindex (netif_ : Z) (self : t) : option Z :=
  if bool_decide (netif_ <> objid self) then None
  else ifindex self.

(** The node with its snapshot emptied, as [savestate] starts from. *)
Definition cleared (r : t) : t := with_old_addrs [] (with_old_up false r).

(** No captured IPv6 address (one without broadcast address) is
    link-local. *)
Definition no_link_local (r : t) : Prop :=
  forall a, (a, None) ∈ old_addrs r -> Py.slice_to 4 a <> "fe80".

End RJ45NodeLookup.

(** ** A host that refuses some commands

    Every command line in [refused] exits with status 1, every other with
    status 0; all are kept in [seen]. *)

Module Fussy.

Record t : Type := {
  refused : list (list string);
  seen : list (list string) }.

#[global] Instance host : Host t :=
  {| exec args w :=
       (Some (if bool_decide (args ∈ refused w) then 1 else 0, ""),
        {| refused := refused w; seen := seen w ++ [args] |}) |}.

(** The inherited bridge methods, as the commands they would run. *)
#[global] Instance ctrl_base {K : constants.t} : CtrlNet.Base t :=
  {| CtrlNet.LxBrNet_startup :=
       self ← getself;
       check_call [BRCTL_BIN; "addbr"; CtrlNet.brname self];
     CtrlNet.addrconfig addrlist :=
       self ← getself;
       for_each addrlist (fun a =>
         check_call [IP_BIN; "addr"; "add"; a; "dev"; CtrlNet.brname self]) |}.

#[global] Instance ctrl_base_shutdown {K : constants.t} : CtrlNetLife.BaseShutdown t :=
  {| CtrlNetLife.LxBrNet_shutdown :=
       self ← getself;
       check_call [BRCTL_BIN; "delbr"; CtrlNet.brname self] |}.

(** Networks of which one is full and takes no interface. *)
Definition full_network : Z := 7.

#[global] Instance networks : RJ45Node.Networks t :=
  {| RJ45Node.net_attach n _ w :=
       if bool_decide (n = full_network)
       then (Raise (ValueError "Point-to-point links support at most 2 network interfaces"), w)
       else (Ok tt, w) |}.

End Fussy.

(** ** Further concrete inputs

    Hosts, control networks, interfaces, models and passthrough nodes on
    which the further properties are exercised. *)

Module Cases.

Import Sample.

(** A host on which no program can be spawned. *)
Record Bare : Type := {
  attempts : list (list string) }.

#[global] Instance bare_host : Host Bare :=
  {| exec args w := (None, {| attempts := attempts w ++ [args] |}) |}.

(** A host that has seen nothing yet and refuses [cmds]. *)
Definition refusing (cmds : list (list string)) : Fussy.t :=
  {| Fussy.refused := cmds; Fussy.seen := [] |}.

(** The control network of [Sample] with a host id its prefix rejects. *)
Definition narrow : CtrlNet.Ipv4Prefix :=
  {| CtrlNet.prefix_addr z :=
       if (0 <? z) && (z <? 255) then Ok ("172.16.0." +:+ pretty z)
       else Raise (ValueError "invalid hostid for prefix 172.16.0.0/24");
     CtrlNet.max_addr := "172.16.0.254"; CtrlNet.prefixlen := 24 |}.

Definition misnumbered : CtrlNet.t :=
  {| CtrlNet.objid := "ctrlnet"; CtrlNet.brname := "b.ctrlnet.77";
     CtrlNet.prefix := narrow;
     CtrlNet.hostid := Some 300; CtrlNet.assign_address := true;
     CtrlNet.updown_script := Some "/etc/core/updown";
     CtrlNet.serverintf := Some "eth9" |}.

(** The control network of [Sample] without an updown script. *)
Definition unscripted : CtrlNet.t :=
  {| CtrlNet.objid := "ctrlnet"; CtrlNet.brname := "b.ctrlnet.77";
     CtrlNet.prefix := CtrlNet.prefix ctrlnet;
     CtrlNet.hostid := None; CtrlNet.assign_address := true;
     CtrlNet.updown_script := None;
     CtrlNet.serverintf := Some "eth9" |}.

(** An interface whose second address has no prefix length. *)
Definition eth0_mistyped : PyCoreNetIf :=
  endpoint "eth0" 1 ["10.0.0.1/24"; "10.0.0.9"; "10.0.0.300/24"] 10.

(** A wireless-class and a mobility-class model, and a WLAN as
    [__init__] leaves it. *)
Definition range_class : WlanNode.ModelClass :=
  {| WlanNode.cls_name := "basic_range";
     WlanNode.cls_config_type := WlanNode.WIRELESS;
     WlanNode.cls_position_callback := Some {| cb_model := "basic_range" |} |}.

Definition waypoint_class : WlanNode.ModelClass :=
  {| WlanNode.cls_name := "ns2script";
     WlanNode.cls_config_type := WlanNode.MOBILITY;
     WlanNode.cls_position_callback := None |}.

Definition unbound (l : list (Z * PyCoreNetIf)) : WlanNode.t (list string) :=
  {| WlanNode.objid := 3; WlanNode._netif := l;
     WlanNode.model := None; WlanNode.mobility := None;
     WlanNode.calls := [] |}.

(** A model that takes no update and keeps its configuration. *)
Definition stubborn : WlanNode.ModelCode (list string) :=
  {| WlanNode.updateconfig m _ := (false, WlanNode.values m) |}.

(** The passthrough node of [Sample] with a snapshot left from an earlier
    run, and the same node while it is up. *)
Definition stale : RJ45Node.t :=
  RJ45Node.with_old_addrs
    [("10.0.0.5/24", Some "10.0.0.255"); ("2001:db8::5/64", None)]
    (RJ45Node.with_old_up true rj45).

Definition running : RJ45Node.t := RJ45Node.with_up true stale.

End Cases.

(** * Properties *)

(** ** The monad *)

Section MonadFacts.
Context {St : Type}.

Lemma bind_ok {A B} (m : M St A) (k : A -> M St B) s a s' :
  m s = (Ok a, s') -> (m ≫= k) s = k a s'.
Proof. intros E. unfold mbind, M_bind, Py.bind. by rewrite E. Qed.

Lemma bind_raise {A B} (m : M St A) (k : A -> M St B) s e s' :
  m s = (Raise e, s') -> (m ≫= k) s = (Raise e, s').
Proof. intros E. unfold mbind, M_bind, Py.bind. by rewrite E. Qed.


(** What a method keeps, from what its parts keep. *)

Lemma keeps_ret {A X} (f : St -> X) (a : A) : keeps f (mret a : M St A).
Proof. by intros s. Qed.

Lemma keeps_raise {A X} (f : St -> X) e : keeps f (raise e : M St A).
Proof. by intros s. Qed.

Lemma keeps_lift {A X} (f : St -> X) (r : result A) : keeps f (lift r : M St A).
Proof. by intros s. Qed.

Lemma keeps_get {X} (f : St -> X) : keeps f (get : M St St).
Proof. by intros s. Qed.

Lemma keeps_modify {X} (f : St -> X) (g : St -> St) :
  (forall s, f (g s) = f s) -> keeps f (modify g).
Proof. intros Hg s. apply Hg. Qed.

Lemma keeps_bind {A B X} (f : St -> X) (m : M St A) (k : A -> M St B) :
  keeps f m -> (forall a, keeps f (k a)) -> keeps f (m ≫= k).
Proof.
  intros Hm Hk s. unfold mbind, M_bind, Py.bind.
  specialize (Hm s). destruct (m s) as [[a|e] s1]; simpl in *; [|done].
  by rewrite Hk.
Qed.

Lemma keeps_try_except {A X} (f : St -> X) (body handler : M St A) catches :
  keeps f body -> keeps f handler -> keeps f (try_except body catches handler).
Proof.
  intros Hb Hh s. unfold try_except.
  specialize (Hb s). destruct (body s) as [[a|e] s1]; simpl in *; [done|].
  destruct (catches e); [|done]. by rewrite Hh.
Qed.

Lemma keeps_for_each {A X} (f : St -> X) (xs : list A) (body : A -> M St unit) :
  (forall x, keeps f (body x)) -> keeps f (for_each xs body).
Proof.
  intros Hb. induction xs as [|x xs IH]; [by intros s|].
  simpl. apply (keeps_bind f (body x) (fun _ => for_each xs body)); auto.
Qed.

End MonadFacts.

(** Exposes the state passing of a method body. *)
Ltac unfold_monad :=
  unfold mbind, M_bind, Py.bind, mret, M_ret, Py.ret, Py.raise, Py.lift,
    Py.get, Py.put, Py.modify, getself, setself in *.

(** ** PtpNet *)

Section PtpNetFacts.
Context {RT : Runtime} {B : LxBrNet.Base}.
Import PtpNet.

Lemma scan_address_decode acc address :
  scan_address acc address = (d ← decode address; mret (store acc d)).
Proof.
  unfold scan_address, decode.
  destruct (Py.partition "/" address) as [[ip sep] mask]. simpl.
  destruct (py_int mask) as [m|e]; simpl; [|done].
  destruct (is_ipv4_address ip); destruct (inet_pton _ ip); done.
Qed.

Lemma scan_addrlist_decoded l : forall acc ds,
  mapM decode l = Ok ds ->
  scan_addrlist acc l = Ok (fold_left store ds acc).
Proof.
  induction l as [|a l IH]; intros acc ds; simpl.
  - by intros [= <-].
  - rewrite scan_address_decode.
    destruct (decode a) as [d|e]; simpl; [|done].
    destruct (mapM decode l) as [ds'|e] eqn:E; simpl; [|done].
    intros [= <-]. simpl. by apply IH.
Qed.

Lemma decodable l :
  forallb (fun address => is_ok (decode address)) l = true ->
  exists ds, mapM decode l = Ok ds.
Proof.
  induction l as [|a l IH]; simpl; [by eexists|].
  intros [Ha Hl]%andb_prop. destruct (IH Hl) as [ds ->].
  destruct (decode a) as [d|]; [|done]. simpl. by eexists.
Qed.

Lemma fold_store_app ds d acc :
  fold_left store (ds ++ [d]) acc = store (fold_left store ds acc) d.
Proof. by rewrite fold_left_app. Qed.

Lemma is_family_af f d : is_family f d = true <-> af d.1 = f.
Proof. unfold is_family. destruct f, (af d.1); split; done. Qed.

(** After the loop each pair of locals holds the last decoded address of
    its family, or [None] if the list has none. *)
Lemma fold_store_last ds :
  let a := fold_left store ds no_addrs in
  ip4 a = fst <$> last_of AF_INET ds /\
  ip4_mask a = snd <$> last_of AF_INET ds /\
  ip6 a = fst <$> last_of AF_INET6 ds /\
  ip6_mask a = snd <$> last_of AF_INET6 ds.
Proof.
  induction ds as [|d ds IH] using rev_ind; [done|].
  simpl in *. rewrite fold_store_app. unfold last_of in *.
  rewrite !List.filter_app. simpl. unfold store, is_family.
  destruct (af d.1); simpl; rewrite ?app_nil_r, ?last_snoc; simpl; tauto.
Qed.

Lemma describable_inv netif :
  describable netif = true ->
  exists n ds, node netif = Some n /\ mapM decode (addrlist netif) = Ok ds.
Proof.
  unfold describable. intros [Hn Hl]%andb_prop.
  destruct (node netif) as [n|]; [|done].
  destruct (decodable _ Hl) as [ds Hds]. eauto.
Qed.

End PtpNetFacts.

Section PtpNetClaims.
Context {RT : Runtime} {B : LxBrNet.Base}.
Import PtpNet.

(** Runs [all_link_data] on a registry of two describable interfaces up
    to the test of the unidirectional flag. *)
Ltac run_all_link_data Hreg H1 H2 :=
  let n1 := fresh "n1" in let n2 := fresh "n2" in
  let ds1 := fresh "ds1" in let ds2 := fresh "ds2" in
  let Hn1 := fresh "Hn1" in let Hn2 := fresh "Hn2" in
  let Hd1 := fresh "Hd1" in let Hd2 := fresh "Hd2" in
  destruct (describable_inv _ H1) as (n1 & ds1 & Hn1 & Hd1);
  destruct (describable_inv _ H2) as (n2 & ds2 & Hn2 & Hd2);
  unfold all_link_data, node_of; rewrite Hreg; simpl;
  rewrite (scan_addrlist_decoded _ _ _ Hd1), (scan_addrlist_decoded _ _ _ Hd2);
  rewrite Hn1, Hn2; simpl.

(** C1: [all_link_data] returns the empty list whenever the number of
    attached interfaces is not 2; with exactly 2 attached interfaces (each
    owned by a node, each address a CIDR string that decodes) it returns
    1 or 2 descriptors, and 2 exactly when the two parameter sets differ. *)
Theorem all_link_data_count (self : LxBrNet.t) (flags : Z) :
  (length (LxBrNet._netif self) <> 2%nat -> all_link_data self flags = Ok [])
  /\ (forall i1 if1 i2 if2,
        LxBrNet._netif self = [(i1, if1); (i2, if2)] ->
        describable if1 = true -> describable if2 = true ->
        exists links,
          all_link_data self flags = Ok links
          /\ (length links = 1%nat \/ length links = 2%nat)
          /\ (length links = 2%nat <-> getparams if1 <> getparams if2)).
Proof.
  split.
  - intros Hlen. unfold all_link_data.
    destruct (Z.of_nat (length (LxBrNet._netif self)) =? 2) eqn:E; [|done].
    apply Z.eqb_eq in E. lia.
  - intros i1 if1 i2 if2 Hreg H1 H2.
    run_all_link_data Hreg H1 H2.
    destruct (decide (getparams if1 <> getparams if2)) as [Hne|Heq]; simpl;
      eexists; (split; [reflexivity|]); simpl; split; auto.
    + tauto.
    + split; [discriminate | tauto].
Qed.

(** C2: with exactly 2 attached interfaces whose parameter sets differ,
    [all_link_data] returns exactly two descriptors: the forward one names
    the two owning nodes and the index each of them gives its interface,
    and carries interface 1's parameter values with unidirectional = 1; the
    reverse one has node ids and interface ids swapped (node 2 and the
    index of interface 2 first), carries the same interface-1 parameter
    values, has unidirectional = 1, a zeroed message type, and no address
    or mac field. *)
Theorem all_link_data_unidirectional (self : LxBrNet.t) (flags : Z)
    (i1 i2 : Z) (if1 if2 : PyCoreNetIf) :
  LxBrNet._netif self = [(i1, if1); (i2, if2)] ->
  describable if1 = true -> describable if2 = true ->
  getparams if1 <> getparams if2 ->
  exists fwd rev n1 n2,
    all_link_data self flags = Ok [fwd; rev]
    /\ node if1 = Some n1 /\ node if2 = Some n2
    /\ (node1_id fwd, node2_id fwd) = (Some (objid n1), Some (objid n2))
    /\ (delay fwd, bandwidth fwd, dup fwd, jitter fwd)
       = (param_delay (getparams if1), param_bw (getparams if1),
          param_duplicate (getparams if1), param_jitter (getparams if1))
    /\ unidirectional fwd = Some 1
    /\ message_type fwd = Some flags
    /\ (node1_id rev, node2_id rev) = (node2_id fwd, node1_id fwd)
    /\ (interface1_id rev, interface2_id rev) = (interface2_id fwd, interface1_id fwd)
    /\ (delay rev, bandwidth rev, dup rev, jitter rev)
       = (delay fwd, bandwidth fwd, dup fwd, jitter fwd)
    /\ unidirectional rev = Some 1
    /\ message_type rev = Some 0
    /\ (interface1_mac rev, interface2_mac rev) = (None, None)
    /\ (interface1_ip4 rev, interface1_ip4_mask rev,
        interface1_ip6 rev, interface1_ip6_mask rev) = (None, None, None, None)
    /\ (interface2_ip4 rev, interface2_ip4_mask rev,
        interface2_ip6 rev, interface2_ip6_mask rev) = (None, None, None, None)
    /\ (interface1_id fwd, interface2_id fwd) = (getifindex n1 if1, getifindex n2 if2)
    /\ (node1_id rev, node2_id rev) = (Some (objid n2), Some (objid n1))
    /\ (interface1_id rev, interface2_id rev) = (getifindex n2 if2, getifindex n1 if1).
Proof.
  intros Hreg H1 H2 Hne.
  run_all_link_data Hreg H1 H2.
  destruct (decide (getparams if1 <> getparams if2)) as [_|Heq]; [|done].
  simpl. do 4 eexists. split; [reflexivity|]. simpl.
  repeat split; done.
Qed.

(** C3: with exactly 2 attached interfaces whose parameter sets are equal,
    [all_link_data] returns exactly one descriptor, and its unidirectional
    flag is 0. *)
Theorem all_link_data_symmetric (self : LxBrNet.t) (flags : Z)
    (i1 i2 : Z) (if1 if2 : PyCoreNetIf) :
  LxBrNet._netif self = [(i1, if1); (i2, if2)] ->
  describable if1 = true -> describable if2 = true ->
  getparams if1 = getparams if2 ->
  exists link, all_link_data self flags = Ok [link] /\ unidirectional link = Some 0.
Proof.
  intros Hreg H1 H2 Heq.
  run_all_link_data Hreg H1 H2.
  destruct (decide (getparams if1 <> getparams if2)) as [Hne|_]; [done|].
  simpl. eexists. split; reflexivity.
Qed.

(** C10: the descriptor reports, for each interface and each family, the
    address and mask of the last address of that family in the interface's
    address list; an earlier address of the same family is overwritten and
    appears nowhere in the descriptor. *)
Theorem all_link_data_last_address (self : LxBrNet.t) (flags : Z)
    (i1 i2 : Z) (if1 if2 : PyCoreNetIf) :
  LxBrNet._netif self = [(i1, if1); (i2, if2)] ->
  describable if1 = true -> describable if2 = true ->
  exists link rest ds1 ds2,
    all_link_data self flags = Ok (link :: rest)
    /\ mapM decode (addrlist if1) = Ok ds1
    /\ mapM decode (addrlist if2) = Ok ds2
    /\ interface1_ip4 link = fst <$> last_of AF_INET ds1
    /\ interface1_ip4_mask link = snd <$> last_of AF_INET ds1
    /\ interface1_ip6 link = fst <$> last_of AF_INET6 ds1
    /\ interface1_ip6_mask link = snd <$> last_of AF_INET6 ds1
    /\ interface2_ip4 link = fst <$> last_of AF_INET ds2
    /\ interface2_ip4_mask link = snd <$> last_of AF_INET ds2
    /\ interface2_ip6 link = fst <$> last_of AF_INET6 ds2
    /\ interface2_ip6_mask link = snd <$> last_of AF_INET6 ds2.
Proof.
  intros Hreg H1 H2.
  run_all_link_data Hreg H1 H2.
  destruct (fold_store_last ds1) as (A1 & A2 & A3 & A4).
  destruct (fold_store_last ds2) as (B1 & B2 & B3 & B4).
  destruct (decide (getparams if1 <> getparams if2)); simpl;
    do 4 eexists; (split; [reflexivity|]); simpl; repeat split; done.
Qed.

(** C4: on a PtpNet that holds 2 interfaces, [attach] raises the capacity
    error and leaves the network as it was; with fewer than 2 it is the
    base class's [attach]. *)
Theorem attach_capacity (self : LxBrNet.t) (netif : PyCoreNetIf) :
  (2 <= length (LxBrNet._netif self) ->
     attach netif self
     = (Raise (ValueError "Point-to-point links support at most 2 network interfaces"),
        self))%nat
  /\ (length (LxBrNet._netif self) < 2 ->
        attach netif self = LxBrNet.attach netif self)%nat.
Proof.
  unfold attach. split; intros Hlen.
  - erewrite bind_ok by reflexivity.
    destruct (2 <=? _) eqn:E; [done|]. apply Z.leb_gt in E. lia.
  - erewrite bind_ok by reflexivity.
    destruct (2 <=? _) eqn:E; [|done]. apply Z.leb_le in E. lia.
Qed.

End PtpNetClaims.

Section PtpNetWitnesses.
Import PtpNet Sample.

Lemma all_link_data_count_witness :
  all_link_data unattached 0 = Ok []
  /\ exists links,
       all_link_data asymmetric 0 = Ok links
       /\ (length links = 1%nat \/ length links = 2%nat)
       /\ (length links = 2%nat <-> getparams eth0 <> getparams eth1_slow).
Proof.
  split.
  - apply (proj1 (all_link_data_count unattached 0)). simpl. lia.
  - apply (proj2 (all_link_data_count asymmetric 0) 0 eth0 1 eth1_slow);
      reflexivity.
Defined.

Lemma all_link_data_unidirectional_witness :
  exists fwd rev,
    all_link_data asymmetric 7 = Ok [fwd; rev]
    /\ delay fwd = Some 10 /\ delay rev = Some 10
    /\ unidirectional rev = Some 1 /\ interface1_ip4 rev = None
    /\ (node1_id fwd, interface1_id fwd, node2_id fwd, interface2_id fwd)
       = (Some 1, Some 0, Some 2, Some 1)
    /\ (node1_id rev, interface1_id rev, node2_id rev, interface2_id rev)
       = (Some 2, Some 1, Some 1, Some 0).
Proof.
  destruct (all_link_data_unidirectional asymmetric 7 0 1 eth0 eth1_slow)
    as (fwd & rev & n1 & n2 & E & Hn1 & Hn2 & Hnf & Hp & _ & _ & _ & _ & Hr & Hu
        & _ & _ & Hi & _ & Hif & Hnr & Hir).
  - reflexivity.
  - reflexivity.
  - reflexivity.
  - vm_compute. discriminate.
  - exists fwd, rev.
    injection Hn1 as <-. injection Hn2 as <-.
    injection Hp as Hd _ _ _. injection Hr as Hd' _ _ _. injection Hi as Hi _ _ _.
    injection Hnf as Hnf1 Hnf2. injection Hif as Hif1 Hif2.
    injection Hnr as Hnr1 Hnr2. injection Hir as Hir1 Hir2.
    rewrite Hd', Hd, Hnf1, Hnf2, Hif1, Hif2, Hnr1, Hnr2, Hir1, Hir2.
    split; [exact E|]. split; [reflexivity|]. split; [reflexivity|].
    split; [exact Hu|]. split; [exact Hi|]. split; reflexivity.
Defined.

Lemma all_link_data_symmetric_witness :
  exists link, all_link_data symmetric 7 = Ok [link] /\ unidirectional link = Some 0.
Proof.
  apply (all_link_data_symmetric symmetric 7 0 1 eth0 eth1); reflexivity.
Defined.

Lemma all_link_data_last_address_witness :
  exists link rest,
    all_link_data asymmetric 7 = Ok (link :: rest)
    /\ interface1_ip4 link
       = Some {| af := AF_INET; addr := [Byte.x0a; Byte.x00; Byte.x01; Byte.x01] |}
    /\ interface1_ip4_mask link = Some 16.
Proof.
  destruct (all_link_data_last_address asymmetric 7 0 1 eth0 eth1_slow)
    as (link & rest & ds1 & ds2 & E & D1 & _ & A & Am & _).
  - reflexivity.
  - reflexivity.
  - reflexivity.
  - exists link, rest. vm_compute in D1. injection D1 as <-.
    repeat split; assumption.
Defined.

Lemma attach_capacity_witness :
  (attach eth1 asymmetric).2 = asymmetric
  /\ LxBrNet._netif (attach eth0 unattached).2 = [(0, eth0)].
Proof.
  split.
  - rewrite (proj1 (attach_capacity asymmetric eth1)); [reflexivity|].
    simpl. lia.
  - rewrite (proj2 (attach_capacity unattached eth0)); [reflexivity|].
    simpl. lia.
Defined.

End PtpNetWitnesses.

(** ** CtrlNet *)

Section CtrlNetFacts.
Import CtrlNet.

Lemma split_cons sep s : exists w ws, Py.split sep s = w :: ws.
Proof.
  induction s as [|c s IH]; simpl; [by eauto|].
  destruct (Ascii.eqb c sep); [by eauto|].
  destruct IH as (w & ws & ->). by eauto.
Qed.

Lemma index_split_0 sep s :
  Py.index (Py.split sep s) 0 = Ok (hd "" (Py.split sep s)).
Proof. by destruct (split_cons sep s) as (w & ws & ->). Qed.

(** The loop answers [True] as soon as some line names a bridge of this
    network. *)
Lemma scan_bridges_found objid lines :
  (exists line, line ∈ lines
     /\ names_bridge_of objid (hd "" (Py.split Py.tab line))) ->
  scan_bridges objid lines = Ok true.
Proof.
  induction lines as [|l lines IH]; intros (line & Hin & Hname).
  - by apply elem_of_nil in Hin.
  - simpl. rewrite index_split_0. simpl.
    apply elem_of_cons in Hin as [<-|Hin].
    + destruct Hname as (suffix & ->). simpl. by rewrite String.eqb_refl.
    + assert (scan_bridges objid lines = Ok true) as -> by (apply IH; eauto).
      destruct (Py.split "." _) as [|f0 [|f1 [|f2 [|]]]]; try done.
      by destruct (_ && _)%bool.
Qed.

(** It answers [False] when no line has three fields starting with "b". *)
Lemma scan_bridges_not_found objid lines :
  Forall (fun line => forall f1 f2,
            Py.split "." (hd "" (Py.split Py.tab line)) <> ["b"; f1; f2]) lines ->
  scan_bridges objid lines = Ok false.
Proof.
  induction 1 as [|l lines Hl _ IH]; [done|].
  simpl. rewrite index_split_0. simpl.
  destruct (Py.split "." _) as [|f0 [|f1 [|f2 [|]]]]; try done.
  destruct (String.eqb f0 "b") eqn:E; [|done].
  apply String.eqb_eq in E as ->. by destruct (Hl f1 f2).
Qed.

End CtrlNetFacts.

Section CtrlNetClaims.
Context {W : Type} {H : Host W} {K : constants.t} {B : CtrlNet.Base W}.
Import CtrlNet.

(** C5, as amended: if the bridge listing enumerates a bridge named
    b.<objid>.<suffix> for this network's id, [startup] returns without
    raising, the network object is unchanged, and the only thing done to the
    host is the listing itself: no bridge is created, no address assigned, no
    script called, no server interface joined. *)
Theorem startup_old_bridge (self : t) (w w' : W) (retstat : Z) (retstr : string) :
  exec [BRCTL_BIN; "show"] w = (Some (retstat, retstr), w') ->
  (exists name, name ∈ bridges retstr /\ names_bridge_of (objid self) name) ->
  startup (self, w) = (Ok tt, (self, w')).
Proof.
  intros Hshow (name & Hin & Hname).
  assert (detectoldbridge (self, w) = (Ok true, (self, w'))) as Hdetect.
  { unfold detectoldbridge, cmdresult, spawn. unfold_monad.
    rewrite Hshow. simpl.
    rewrite scan_bridges_found; [done|].
    unfold bridges in Hin. apply list_elem_of_fmap in Hin as (line & -> & Hl).
    eauto. }
  unfold startup. by erewrite bind_ok by exact Hdetect.
Qed.

End CtrlNetClaims.

Section CtrlNetWitnesses.
Import CtrlNet Sample.

Lemma startup_old_bridge_witness :
  startup (ctrlnet, stale_host)
  = (Ok tt, (ctrlnet, {| listing := listing stale_host;
                         commands := [[BRCTL_BIN; "show"]] |})).
Proof.
  apply (startup_old_bridge ctrlnet stale_host _ 0 (listing stale_host)).
  - reflexivity.
  - exists "b.ctrlnet.41". split.
    + vm_compute. apply list_elem_of_here.
    + exists "41". reflexivity.
Defined.

(** C5, as stated, fails: the host lists a bridge x.ctrlnet.41, a name of
    the shape <prefix>.<objid>.<suffix> for this network's id, and [startup]
    goes on to create and configure the bridge. *)
Lemma startup_foreign_prefix :
  (exists name, name ∈ bridges (listing foreign_host)
                /\ names_id (objid ctrlnet) name)
  /\ (startup (ctrlnet, foreign_host)).1 = Ok tt
  /\ commands (startup (ctrlnet, foreign_host)).2.2
     = [ [BRCTL_BIN; "show"];
         [BRCTL_BIN; "addbr"; "b.ctrlnet.77"];
         [IP_BIN; "addr"; "add"; "172.16.0.254/24"; "dev"; "b.ctrlnet.77"];
         ["/etc/core/updown"; "b.ctrlnet.77"; "startup"];
         [BRCTL_BIN; "addif"; "b.ctrlnet.77"; "eth9"];
         [IP_BIN; "link"; "set"; "eth9"; "up"] ].
Proof.
  split; [|split].
  - exists "x.ctrlnet.41". split.
    + vm_compute. apply list_elem_of_here.
    + exists "x", "41". reflexivity.
  - vm_compute. reflexivity.
  - vm_compute. reflexivity.
Qed.

End CtrlNetWitnesses.

(** ** WlanNode *)

Section WlanNodeClaims.
Context {Values : Type} {MC : WlanNode.ModelCode Values}.
Import WlanNode.

Lemma wire_netifs_spec hook (l : list (Z * PyCoreNetIf)) :
  wire_netifs hook l = (hooked hook l, invocations hook l).
Proof.
  induction l as [|[ifindex netif] l IH]; [done|].
  simpl. rewrite IH. unfold invocations at 2. simpl. unfold invocation. simpl.
  destruct (node netif) as [n|]; [|done].
  by destruct (position n) as [[x y] z].
Qed.

Lemma hooked_poshook hook (l : list (Z * PyCoreNetIf)) e :
  e ∈ hooked hook l -> poshook e.2 = Some hook.
Proof.
  unfold hooked. intros (e' & -> & _)%list_elem_of_fmap. done.
Qed.

Lemma invocations_owned hook (l : list (Z * PyCoreNetIf)) i netif n :
  (i, netif) ∈ l -> node netif = Some n ->
  call_poshook hook (set_poshook (Some hook) netif)
    (position n).1.1 (position n).1.2 (position n).2 ∈ invocations hook l.
Proof.
  intros Hin Hn. unfold invocations. apply list_elem_of_bind.
  exists (i, netif). split; [|done].
  unfold invocation. simpl. rewrite Hn. apply list_elem_of_here.
Qed.

(** C8, as amended: [updatemodel] changes nothing when no model is bound or
    the bound model has another name.  With the bound wireless model's name
    and an update the model accepts, the model keeps the configuration the
    update left; if the model has a position callback it is stored on every
    attached interface, and every attached interface that has an owning node
    receives one call of it with that node's position (an interface
    without a node receives none); then the link parameters are reapplied.
    A model without a callback only has its link parameters reapplied. *)
Theorem updatemodel_wiring (self : t Values) (model_name : string) (vals : Values) :
  (model self = None \/ (exists m, model self = Some m /\ name m <> model_name) ->
     updatemodel model_name vals self = (Ok tt, self))
  /\ (forall m vals',
        model self = Some m -> name m = model_name ->
        config_type m = WIRELESS -> updateconfig m vals = (true, vals') ->
        exists self',
          updatemodel model_name vals self = (Ok tt, self')
          /\ model self' = Some (with_values vals' m)
          /\ mobility self' = mobility self
          /\ match position_callback m with
             | Some hook =>
                 _netif self' = hooked hook (_netif self)
                 /\ calls self'
                    = calls self ++ invocations hook (_netif self)
                        ++ [call_setlinkparams (name m)]
             | None =>
                 _netif self' = _netif self
                 /\ calls self' = calls self ++ [call_setlinkparams (name m)]
             end).
Proof.
  split.
  - intros [Hnone|(m & Hm & Hne)]; unfold updatemodel; unfold_monad.
    + by rewrite Hnone.
    + rewrite Hm. apply String.eqb_neq in Hne. by rewrite Hne.
  - intros m vals' Hm Hname Hkind Hupd.
    unfold updatemodel, wire_model, setlinkparams. unfold_monad.
    rewrite Hm. apply String.eqb_eq in Hname. rewrite Hname. simpl.
    destruct (decide (config_type m = WIRELESS)) as [_|]; [|done].
    rewrite Hupd. simpl.
    unfold with_values.
    destruct (position_callback m) as [hook|] eqn:Hcb; simpl.
    + rewrite wire_netifs_spec. simpl. eexists. split; [reflexivity|].
      simpl. by rewrite <- app_assoc.
    + eexists. split; [reflexivity|]. done.
Qed.

End WlanNodeClaims.

Section WlanNodeWitnesses.
Import WlanNode Sample.

Lemma updatemodel_wiring_witness :
  updatemodel "emane" ["range=300"] (wlan [(0, eth0); (1, tap)])
  = (Ok tt, wlan [(0, eth0); (1, tap)])
  /\ exists self',
       updatemodel "basic_range" ["range=300"] (wlan [(0, eth0); (1, tap)])
       = (Ok tt, self')
       /\ calls self'
          = [call_poshook {| cb_model := "basic_range" |}
               (set_poshook (Some {| cb_model := "basic_range" |}) eth0) 100 50 0;
             call_setlinkparams "basic_range"].
Proof.
  pose proof (updatemodel_wiring (wlan [(0, eth0); (1, tap)])) as Hspec.
  split.
  - apply (proj1 (Hspec "emane" ["range=300"])).
    right. exists basic_range. split; [reflexivity|discriminate].
  - destruct (proj2 (Hspec "basic_range" ["range=300"]) basic_range ["range=300"])
      as (self' & E & _ & _ & _ & Hcalls); try reflexivity.
    exists self'. split; [exact E|]. rewrite Hcalls. reflexivity.
Defined.

(** C8, as stated, fails: an attached interface without an owning node has
    the callback stored on it but receives no call of it. *)
Lemma updatemodel_skips_unowned :
  let after := updatemodel "basic_range" ["range=300"] (wlan [(1, tap)]) in
  after.1 = Ok tt
  /\ _netif after.2 = [(1, set_poshook (Some {| cb_model := "basic_range" |}) tap)]
  /\ calls after.2 = [call_setlinkparams "basic_range"].
Proof. vm_compute. repeat split. Qed.

End WlanNodeWitnesses.

(** ** RJ45Node *)

Section HostFacts.
Context {Self W : Type} {H : Host W}.

(** Host commands do not touch the object that runs them. *)

Lemma keeps_spawn {X} (f : Self -> X) args :
  keeps (fun s : Self * W => f s.1) (spawn args).
Proof. intros [self w]. unfold spawn. by destruct (exec args w). Qed.

Lemma keeps_check_call {X} (f : Self -> X) args :
  keeps (fun s : Self * W => f s.1) (check_call args).
Proof.
  apply keeps_bind; [apply keeps_spawn|].
  intros [[status out]|]; [|apply keeps_raise].
  destruct (status =? 0); [apply keeps_ret | apply keeps_raise].
Qed.

Lemma keeps_mutecall {X} (f : Self -> X) args :
  keeps (fun s : Self * W => f s.1) (mutecall args).
Proof.
  apply keeps_bind; [apply keeps_spawn|].
  intros [[status out]|]; [apply keeps_ret | apply keeps_raise].
Qed.

Lemma keeps_getself {X} (f : Self * W -> X) : keeps f (getself : M (Self * W) Self).
Proof. by intros s. Qed.

Lemma keeps_setself {X} (f : Self -> X) (g : Self -> Self) :
  (forall r, f (g r) = f r) ->
  keeps (fun s : Self * W => f s.1) (setself g).
Proof. intros Hg [self w]. apply Hg. Qed.

Lemma check_call_ok args (self : Self) w out w' :
  exec args w = (Some (0, out), w') ->
  check_call args (self, w) = (Ok tt, (self, w')).
Proof. intros E. unfold check_call, spawn. unfold_monad. by rewrite E. Qed.

Lemma check_call_failed args (self : Self) w status out w' :
  exec args w = (Some (status, out), w') -> status <> 0 ->
  check_call args (self, w) = (Raise CalledProcessError, (self, w')).
Proof.
  intros E Hs. unfold check_call, spawn. unfold_monad. rewrite E.
  apply Z.eqb_neq in Hs. by rewrite Hs.
Qed.

Lemma mutecall_ok args (self : Self) w status out w' :
  exec args w = (Some (status, out), w') ->
  mutecall args (self, w) = (Ok status, (self, w')).
Proof. intros E. unfold mutecall, spawn. unfold_monad. by rewrite E. Qed.

(** Changes to the object do not touch the host. *)
Lemma setself_world (g : Self -> Self) :
  keeps (fun s : Self * W => s.2) (setself g).
Proof. by intros s. Qed.

End HostFacts.

Section RJ45NodeFacts.
Context {W : Type} {H : Host W} {K : constants.t} {N : RJ45Node.Networks W}.
Import RJ45Node.

Abbreviation on_self f := (fun s : t * W => f s.1).

Lemma restorestate_keeps_self : keeps (on_self id) restorestate.
Proof.
  unfold restorestate.
  apply keeps_bind; [apply keeps_getself|]. intros self.
  apply keeps_bind.
  { apply keeps_for_each. intros addr.
    apply keeps_bind; [apply keeps_getself|]. intros self'.
    destruct (addr.2); apply (keeps_check_call id). }
  intros _. apply keeps_bind; [apply keeps_getself|]. intros self'.
  destruct (old_up self'); [apply (keeps_check_call id) | apply keeps_ret].
Qed.

Lemma savestate_line_keeps l :
  keeps (on_self beside_snapshot) (savestate_line l).
Proof.
  unfold savestate_line.
  apply keeps_bind; [apply keeps_getself|]. intros self.
  destruct (_ <? _)%nat; [apply keeps_ret|].
  apply keeps_bind; [apply keeps_lift|]. intros i0.
  apply keeps_bind; [apply keeps_lift|]. intros i1.
  destruct (String.eqb i1 _).
  { apply keeps_bind; [apply keeps_lift|]. intros i2.
    destruct (bool_decide _);
      [by apply (keeps_setself beside_snapshot) | apply keeps_ret]. }
  destruct (String.eqb i0 "inet").
  { apply keeps_bind; [apply keeps_lift|]. intros i3.
    by apply (keeps_setself beside_snapshot). }
  destruct (String.eqb i0 "inet6"); [|apply keeps_ret].
  destruct (String.eqb _ "fe80");
    [apply keeps_ret | by apply (keeps_setself beside_snapshot)].
Qed.

Lemma savestate_line_world l : keeps (fun s : t * W => s.2) (savestate_line l).
Proof.
  unfold savestate_line.
  apply keeps_bind; [apply keeps_getself|]. intros self.
  destruct (_ <? _)%nat; [apply keeps_ret|].
  apply keeps_bind; [apply keeps_lift|]. intros i0.
  apply keeps_bind; [apply keeps_lift|]. intros i1.
  destruct (String.eqb i1 _).
  { apply keeps_bind; [apply keeps_lift|]. intros i2.
    destruct (bool_decide _); [apply setself_world | apply keeps_ret]. }
  destruct (String.eqb i0 "inet").
  { apply keeps_bind; [apply keeps_lift|]. intros i3. apply setself_world. }
  destruct (String.eqb i0 "inet6"); [|apply keeps_ret].
  destruct (String.eqb _ "fe80"); [apply keeps_ret | apply setself_world].
Qed.

Lemma savestate_keeps :
  keeps (on_self beside_snapshot) savestate.
Proof.
  unfold savestate.
  apply keeps_bind; [by apply (keeps_setself beside_snapshot)|]. intros _.
  apply keeps_bind; [by apply (keeps_setself beside_snapshot)|]. intros _.
  apply keeps_bind; [apply keeps_getself|]. intros self.
  apply keeps_bind; [apply (keeps_spawn beside_snapshot)|].
  intros [[status lines]|]; [|apply keeps_raise].
  destruct (negb _); [apply keeps_ret|].
  apply keeps_for_each, savestate_line_keeps.
Qed.

Lemma startup_keeps : keeps (on_self attachment) startup.
Proof.
  unfold startup.
  apply keeps_bind.
  { intros s. pose proof (savestate_keeps s) as E. simpl in E.
    unfold beside_snapshot in E. congruence. }
  intros _. apply keeps_try_except; [|apply keeps_ret].
  apply keeps_bind; [apply keeps_getself|]. intros self.
  apply keeps_bind; [apply (keeps_check_call attachment)|]. intros _.
  by apply (keeps_setself attachment).
Qed.

Lemma shutdown_keeps : keeps (on_self attachment) shutdown.
Proof.
  unfold shutdown.
  apply keeps_bind; [apply keeps_getself|]. intros self.
  destruct (negb _); [apply keeps_ret|].
  apply keeps_bind; [apply (keeps_check_call attachment)|]. intros _.
  apply keeps_bind; [apply (keeps_check_call attachment)|]. intros _.
  apply keeps_bind; [apply (keeps_mutecall attachment)|]. intros _.
  apply keeps_bind; [by apply (keeps_setself attachment)|]. intros _.
  intros s. pose proof (restorestate_keeps_self s) as E. simpl in E.
  unfold id in E. by rewrite E.
Qed.

Lemma addaddr_keeps addr : keeps (on_self attachment) (addaddr addr).
Proof.
  unfold addaddr.
  apply keeps_bind; [apply keeps_getself|]. intros self.
  apply keeps_bind.
  { destruct (up self); [apply (keeps_check_call attachment) | apply keeps_ret]. }
  intros _. by apply (keeps_setself attachment).
Qed.

Lemma with_addrlist_id r : with_addrlist (addrlist r) r = r.
Proof. by destruct r. Qed.

(** On a host that takes the addresses, the address loop of [newnetif]
    appends all of them. *)
Lemma addaddr_all (steady : W -> Prop) l : forall r w,
  steady w ->
  (up r = true -> accepts_addresses steady (name r)) ->
  for_each l addaddr (r, w)
  = (Ok tt, (with_addrlist (addrlist r ++ l) r,
             if up r then applied (name r) l w else w)).
Proof.
  induction l as [|a l IH]; intros r w Hw Hacc.
  - simpl. rewrite app_nil_r, with_addrlist_id. by destruct (up r).
  - simpl. unfold addaddr at 1, check_call, spawn. unfold_monad. simpl.
    destruct (up r) eqn:Hup.
    + destruct (Hacc eq_refl a w Hw) as (out & w1 & E & Hw1). rewrite E. simpl.
      rewrite (IH (with_addrlist (addrlist r ++ [a]) r) w1 Hw1) by (by simpl; auto).
      simpl. by rewrite <- app_assoc, Hup.
    + simpl. rewrite (IH (with_addrlist (addrlist r ++ [a]) r) w Hw)
        by (simpl; congruence).
      simpl. by rewrite <- app_assoc, Hup.
Qed.

End RJ45NodeFacts.

Section RJ45NodeClaims.
Context {W : Type} {H : Host W} {K : constants.t} {N : RJ45Node.Networks W}.
Import RJ45Node.

(* From here on the loops are handled by their lemmas, not by unfolding. *)
#[local] Arguments for_each : simpl never.

(** C6: on a node that already has a network attached, [newnetif] raises
    the capacity error and leaves node and host as they were, whatever
    network it is given.  On a node with no network attached (the given
    network, if any, taking the interface, and the host taking the
    addresses when the node is up), [newnetif] registers the node itself
    under the supplied index, or 0, makes that its [ifindex], attaches the
    given network if there is one, and applies the supplied addresses: they
    are appended to the address list and, when the node is up, added to the
    device on the host, in order. *)
Theorem newnetif_single_network (steady : W -> Prop) (self : t) (w : W)
    (net_ : option Z) (addrlist_ : option (list string))
    (hwaddr : option string) (ifindex_ : option Z) (ifname : option string) :
  (net self <> None ->
     newnetif net_ addrlist_ hwaddr ifindex_ ifname (self, w)
     = (Raise (ValueError "RJ45 nodes support at most 1 network interface"),
        (self, w)))
  /\ (net self = None ->
      steady w ->
      (forall n, net_ = Some n ->
                 exists w1, net_attach n (objid self) w = (Ok tt, w1) /\ steady w1) ->
      (up self = true -> accepts_addresses steady (name self)) ->
      exists self' w',
        newnetif net_ addrlist_ hwaddr ifindex_ ifname (self, w)
        = (Ok (default 0 ifindex_), (self', w'))
        /\ _netif self' = <[default 0 ifindex_ := objid self]> (_netif self)
        /\ ifindex self' = Some (default 0 ifindex_)
        /\ node self' = Some (objid self)
        /\ net self' = net_
        /\ addrlist self' = addrlist self ++ default [] addrlist_
        /\ up self' = up self
        /\ w' = (if up self then applied (name self) (default [] addrlist_) else id)
                 (if net_ is Some n then (net_attach n (objid self) w).2 else w)).
Proof.
  split.
  - intros Hnet. unfold newnetif. unfold_monad.
    by rewrite bool_decide_eq_true_2.
  - intros Hnet Hw Hatt Hacc. unfold newnetif. unfold_monad.
    rewrite bool_decide_eq_false_2 by (by intros ?). cbn.
    set (r0 := with_ifindex _ _).
    set (w1 := if net_ is Some n then (net_attach n (objid self) w).2 else w).
    assert (match net_ with
            | Some n => attachnet n
            | None => fun s => (Ok tt, s)
            end (r0, w)
            = (Ok tt, (with_net (if net_ is Some n then Some n else None) r0, w1))
            /\ steady w1) as [-> Hw1].
    { subst w1. destruct net_ as [n|].
      - destruct (Hatt n eq_refl) as (w1 & Hw1 & Hs1).
        unfold attachnet. unfold_monad. cbn [fst snd].
        change (objid r0) with (objid self). by rewrite Hw1.
      - split; [|done]. subst r0. rewrite <- Hnet. by destruct self. }
    set (r1 := with_net _ r0).
    assert (forall self' (w' : W),
      self' = with_addrlist (addrlist r1 ++ default [] addrlist_) r1 ->
      w' = (if up self then applied (name self) (default [] addrlist_) else id) w1 ->
      (Ok (default 0 ifindex_), (self', w'))
      = (Ok (default 0 ifindex_) : result Z, (self', w'))
      /\ _netif self' = <[default 0 ifindex_ := objid self]> (_netif self)
      /\ ifindex self' = Some (default 0 ifindex_)
      /\ node self' = Some (objid self)
      /\ net self' = net_
      /\ addrlist self' = addrlist self ++ default [] addrlist_
      /\ up self' = up self
      /\ w' = (if up self then applied (name self) (default [] addrlist_) else id) w1)
      as Hfinal.
    { intros self' w' -> ->. subst r1 r0. simpl. repeat split. by destruct net_. }
    destruct addrlist_ as [[|a l]|].
    + exists r1, w1. apply Hfinal; [|by destruct (up self)]. symmetry.
      etrans; [|apply (with_addrlist_id r1)]. f_equal. apply app_nil_r.
    + rewrite (addaddr_all steady (a :: l) r1 w1 Hw1 Hacc).
      do 2 eexists. apply Hfinal; [done|]. subst r1 r0. cbn [up name with_net
        with_ifindex with_node with_netif]. by destruct (up self).
    + exists r1, w1. apply Hfinal; [|by destruct (up self)]. symmetry.
      etrans; [|apply (with_addrlist_id r1)]. f_equal. apply app_nil_r.
Qed.

Lemma single_key_fresh r : fresh r -> single_key r.
Proof.
  intros (_ & _ & Hreg & _). split.
  - intros i [x Hx]. by rewrite Hreg, lookup_empty in Hx.
  - done.
Qed.

Lemma single_key_attachment r r' :
  attachment r' = attachment r -> single_key r -> single_key r'.
Proof. unfold attachment, single_key. intros [= -> -> ->]. done. Qed.

Lemma newnetif_single_key n addrlist_ hwaddr ifindex_ ifname s :
  networks_accept -> single_key s.1 ->
  single_key (newnetif (Some n) addrlist_ hwaddr ifindex_ ifname s).2.1.
Proof.
  intros Hnet [Hkey Hreg]. destruct s as [r w]. cbn [fst snd] in *.
  unfold newnetif at 1. unfold_monad. cbn [fst snd].
  destruct (bool_decide (net r <> None)) eqn:E; [done|].
  apply bool_decide_eq_false in E. cbn.
  assert (_netif r = ∅) as Hempty.
  { destruct (decide (_netif r = ∅)) as [|Hne]; [done|]. by destruct (E (Hreg Hne)). }
  set (r0 := with_ifindex _ _).
  unfold attachnet. unfold_monad. cbn [fst snd].
  destruct (Hnet n (objid r0) w) as (w1 & ->).
  assert (forall r2, attachment r2 = attachment (with_net (Some n) r0) ->
                     single_key r2) as Hdone.
  { intros r2 Hr2. apply (single_key_attachment _ _ Hr2).
    split; simpl; [|done].
    intros i [x Hx]. rewrite Hempty in Hx.
    apply lookup_insert_Some in Hx as [[<- _]|[_ Hx]]; [done|].
    by rewrite lookup_empty in Hx. }
  destruct addrlist_ as [[|a l]|]; cbn; try by apply Hdone.
  pose proof (keeps_for_each (fun s : t * W => attachment s.1) (a :: l) addaddr
                addaddr_keeps (with_net (Some n) r0, w1)) as Htail.
  destruct (for_each (a :: l) addaddr _) as [[[]|e] [r2 w2]];
    cbn in *; by apply Hdone.
Qed.

Lemma delnetif_single_key ifindex_ s :
  single_key s.1 -> single_key (delnetif ifindex_ s).2.1.
Proof.
  intros [Hkey Hreg]. destruct s as [r w]. simpl in *.
  unfold delnetif. unfold_monad. simpl.
  destruct (bool_decide _); [done|].
  assert (single_key (with_netif (delete (default 0 ifindex_) (_netif r)) r)) as Hdel.
  { split; simpl.
    - intros i [x Hx]. apply lookup_delete_Some in Hx as [_ Hx]. eauto.
    - intros Hne. apply Hreg. intros E. rewrite E in Hne.
      by rewrite delete_empty in Hne. }
  destruct (bool_decide _); [|done].
  eapply single_key_attachment; [|exact Hdel].
  apply (shutdown_keeps (_, w)).
Qed.

Lemma reachable_single_key s :
  networks_accept -> reachable s -> single_key s.1.
Proof.
  intros Hnet (s0 & Hfresh & Hsteps).
  apply (rtc_ind_r (R := step) (fun s => single_key s.1) s0);
    [by apply single_key_fresh| |exact Hsteps].
  intros s1 s2 _ Hstep IH. destruct Hstep.
  - by apply newnetif_single_key.
  - by apply delnetif_single_key.
  - eapply single_key_attachment; [apply (startup_keeps s1)|done].
  - eapply single_key_attachment; [apply (shutdown_keeps s1)|done].
Qed.

(** C9, as amended: as long as every [newnetif] call is given a network,
    and the networks take the interface, the registry of a node holds no
    index but the node's own [ifindex]; so [delnetif] either raises the
    unknown-index error with node and host unchanged (the index, 0 by
    default, is not registered), or the index is the node's own, the
    registry is left empty and [shutdown] runs.  The final error branch,
    for a registered index other than the node's own, is not reached. *)
Theorem delnetif_own_index (s : t * W) (ifindex_ : option Z) :
  networks_accept -> reachable s ->
  (forall j, is_Some (_netif s.1 !! j) -> ifindex s.1 = Some j)
  /\ ((_netif s.1 !! default 0 ifindex_ = None
       /\ delnetif ifindex_ s
          = (Raise (ValueError ("ifindex " +:+ pretty (default 0 ifindex_)
                                +:+ " does not exist")), s))
      \/ (is_Some (_netif s.1 !! default 0 ifindex_)
          /\ ifindex s.1 = Some (default 0 ifindex_)
          /\ delnetif ifindex_ s = shutdown (with_netif ∅ s.1, s.2))).
Proof.
  intros Hnet Hreach.
  destruct (reachable_single_key s Hnet Hreach) as [Hkey _].
  split; [exact Hkey|]. destruct s as [r w]. cbn [fst snd] in *.
  unfold delnetif. unfold_monad. cbn [fst snd].
  destruct (_netif r !! default 0 ifindex_) as [x|] eqn:Hx.
  - right. pose proof (Hkey _ (mk_is_Some _ _ Hx)) as Hown.
    split; [by eexists|]. split; [done|].
    rewrite bool_decide_eq_false_2 by done.
    rewrite bool_decide_eq_true_2 by done.
    f_equal. f_equal. f_equal. apply map_eq. intros j.
    rewrite lookup_empty. destruct (decide (j = default 0 ifindex_)) as [->|Hj].
    + apply lookup_delete_eq.
    + rewrite lookup_delete_ne by done.
      destruct (_netif r !! j) as [y|] eqn:Hy; [|done].
      pose proof (Hkey _ (mk_is_Some _ _ Hy)). congruence.
  - left. split; [done|]. by rewrite bool_decide_eq_true_2.
Qed.

End RJ45NodeClaims.

(** ** The host with one card *)

Section NicFacts.
Context {K : constants.t} {L : Nic.Listing}.
Import Nic.

Lemma run_ip args n :
  run (IP_BIN :: args) n
  = let '(status, out, n') := ip args (logged (IP_BIN :: args) n) in
    (Some (status, out), n').
Proof. unfold run. by rewrite String.eqb_refl. Qed.




Lemma ip_add n a :
  ip ["addr"; "add"; a; "dev"; name n] n
  = (0, "", with_addrs (addrs n ++ [(a, None)]) n).
Proof.
  unfold ip. do 4 rewrite decide_False by (by intros [=]). by rewrite decide_True.
Qed.

Lemma ip_add_brd n a brd :
  ip ["addr"; "add"; a; "brd"; brd; "dev"; name n] n
  = (0, "", with_addrs (addrs n ++ [(a, Some brd)]) n).
Proof.
  unfold ip. do 4 rewrite decide_False by (by intros [=]). by rewrite decide_True.
Qed.

(** Listing the card does nothing to it, whatever device is asked for. *)
Lemma ip_show dev n : (ip ["addr"; "show"; "dev"; dev] n).2 = n.
Proof. unfold ip. repeat case_decide; simplify_eq; done. Qed.

(** Setting the link of another device fails and does nothing. *)
Lemma ip_link_other dev state n :
  dev <> name n -> ip ["link"; "set"; dev; state] n = (1, "", n).
Proof. intros Hdev. unfold ip. repeat case_decide; simplify_eq; done. Qed.


Lemma routable_idemp l : routable (routable l) = routable l.
Proof.
  unfold routable. induction l as [|a l IH]; [done|]. simpl.
  destruct (negb (link_local a)) eqn:E; simpl; rewrite ?E, IH; done.
Qed.



End NicFacts.

(** ** Reading the listing back *)

Section ListingFacts.
Import Iproute2.






(** *** [str.split(sep)] *)




(** *** [str.split()] *)






(** *** [s[1:-1]] *)





(** *** The lines of a listing *)


End ListingFacts.

(** ** RJ45Node: what the snapshot holds after reading a listing *)

Section SnapshotFacts.
Context {W : Type} {H : Host W} {K : constants.t} {N : RJ45Node.Networks W}.
Import RJ45Node Iproute2.

#[local] Arguments for_each : simpl never.














End SnapshotFacts.

(** ** RJ45Node on the host with one card *)

Section RoundTrip.
Context {K : constants.t} {L : Nic.Listing} {N : RJ45Node.Networks Nic.t}.
Import RJ45Node.

#[local] Arguments for_each : simpl never.




Lemma exec_readd dev n a :
  dev = Nic.name n ->
  exec (readd dev a) n
  = (Some (0, ""),
     Nic.with_addrs (Nic.addrs n ++ [a]) (Nic.logged (readd dev a) n)).
Proof.
  intros ->. unfold exec, Nic.host, readd.
  destruct a as [address [brd|]]; cbn [fst snd]; rewrite run_ip.
  - by rewrite (ip_add_brd (Nic.logged _ n)).
  - by rewrite (ip_add (Nic.logged _ n)).
Qed.

Lemma exec_link_other dev state n :
  dev <> Nic.name n ->
  exec [IP_BIN; "link"; "set"; dev; state] n
  = (Some (1, ""), Nic.logged [IP_BIN; "link"; "set"; dev; state] n).
Proof.
  intros Hdev. unfold exec, Nic.host. rewrite run_ip.
  by rewrite (ip_link_other dev state (Nic.logged _ n)).
Qed.




(** Taking the snapshot only lists the card. *)
Lemma savestate_world r n :
  (savestate (r, n)).2.2
  = Nic.logged [IP_BIN; "addr"; "show"; "dev"; localname r] n.
Proof.
  unfold savestate, spawn. unfold_monad. cbn [fst snd].
  unfold exec, Nic.host. rewrite run_ip.
  change (localname (with_old_addrs [] (with_old_up false r))) with (localname r).
  pose proof (ip_show (localname r)
                (Nic.logged [IP_BIN; "addr"; "show"; "dev"; localname r] n)) as E.
  destruct (Nic.ip _ _) as [[status out] n']. cbn [fst snd] in E. subst n'.
  destruct (negb (status =? 0)); [done|].
  apply (keeps_for_each (fun s : t * Nic.t => s.2) _ _ savestate_line_world).
Qed.


Lemma startup_off_card r n r' n' :
  savestate (r, n) = (Ok tt, (r', n')) -> localname r' <> Nic.name n' ->
  startup (r, n)
  = (Ok tt, (r', Nic.logged [IP_BIN; "link"; "set"; localname r'; "up"] n')).
Proof.
  intros Hsave Hdev. unfold startup. erewrite bind_ok by exact Hsave.
  unfold try_except. erewrite bind_ok by reflexivity. cbn [fst snd].
  erewrite bind_raise by (by eapply check_call_failed; [apply exec_link_other|]).
  done.
Qed.




End RoundTrip.

Section RJ45NodeWitnesses.
Import RJ45Node Sample.



(** The card eth0 takes every address added to it. *)
Lemma card_accepts :
  accepts_addresses (fun w : Nic.t => Nic.name w = "eth0") "eth0".
Proof.
  intros addr w Hw. do 2 eexists. split.
  - apply (exec_readd "eth0" w (addr, None)). by symmetry.
  - exact Hw.
Qed.

Lemma newnetif_single_network_witness :
  newnetif (Some 6) None None None None (with_net (Some 5) rj45, card)
  = (Raise (ValueError "RJ45 nodes support at most 1 network interface"),
     (with_net (Some 5) rj45, card))
  /\ exists self' w',
       newnetif (Some 5) (Some ["10.0.0.5/24"; "10.0.1.5/24"]) None None None
         (with_up true rj45, card)
       = (Ok 0, (self', w'))
       /\ _netif self' = {[ 0 := 9 ]}
       /\ ifindex self' = Some 0
       /\ net self' = Some 5
       /\ addrlist self' = ["10.0.0.5/24"; "10.0.1.5/24"].
Proof.
  split.
  - apply (proj1 (newnetif_single_network (fun _ => True)
                    (with_net (Some 5) rj45) card (Some 6) None None None None)).
    discriminate.
  - destruct (proj2 (newnetif_single_network (fun w => Nic.name w = "eth0")
                       (with_up true rj45) card (Some 5)
                       (Some ["10.0.0.5/24"; "10.0.1.5/24"]) None None None))
      as (self' & w' & E & Hreg & Hidx & _ & Hnet & Haddrs & _ & _).
    + reflexivity.
    + reflexivity.
    + intros n _. exists card. split; reflexivity.
    + intros _. exact card_accepts.
    + exists self', w'. repeat split; assumption.
Defined.

Lemma delnetif_own_index_witness :
  let s := (newnetif (Some 5) None None None None (rj45, card)).2 in
  ifindex s.1 = Some 0
  /\ delnetif (Some 0) s = shutdown (with_netif ∅ s.1, s.2).
Proof.
  intros s.
  destruct (delnetif_own_index s (Some 0)) as [Hkey [[Hnone _]|(_ & Hidx & E)]].
  - intros n i w. by exists w.
  - exists (rj45, card). split; [by repeat split|].
    apply rtc_once, step_newnetif.
  - vm_compute in Hnone. discriminate.
  - split; assumption.
Defined.

(** C9, as stated, fails: two [newnetif] calls without a network leave two
    indices in the registry; [delnetif] of the first then finds the index
    registered, removes it, and raises from its final branch, the registry
    changed and [shutdown] not run. *)
Lemma delnetif_second_index :
  let s1 := (newnetif None None None (Some 0) None (rj45, card)).2 in
  let s2 := (newnetif None None None (Some 1) None s1).2 in
  let after := delnetif (Some 0) s2 in
  (_netif s2.1 !! 0, _netif s2.1 !! 1, ifindex s2.1) = (Some 9, Some 9, Some 1)
  /\ after.1 = Raise (ValueError "ifindex 0 does not exist")
  /\ (_netif after.2.1 !! 0, _netif after.2.1 !! 1) = (None, Some 9)
  /\ Nic.history after.2.2 = [].
Proof. vm_compute. repeat split. Qed.

End RJ45NodeWitnesses.

(** * Further properties *)

(** ** CtrlNet: detection, startup and shutdown *)

Section CtrlNetLifeFacts.
Context {W : Type} {H : Host W} {K : constants.t} {B : CtrlNet.Base W}
  {BS : CtrlNetLife.BaseShutdown W}.
Import CtrlNet CtrlNetLife.

Lemma scan_bridges_spec objid lines :
  exists b, scan_bridges objid lines = Ok b
    /\ (b = true <->
        exists line, line ∈ lines
          /\ names_bridge_of objid (hd "" (Py.split Py.tab line))).
Proof.
  induction lines as [|l lines (b & IH & Hb)].
  - exists false. split; [done|]. split; [done|].
    intros (line & Hin & _). by apply elem_of_nil in Hin.
  - assert (names_bridge_of objid (hd "" (Py.split Py.tab l))
            \/ scan_bridges objid (l :: lines) = scan_bridges objid lines
               /\ ~ names_bridge_of objid (hd "" (Py.split Py.tab l))) as [Hl|[E Hl]].
    { simpl. rewrite index_split_0. simpl. unfold names_bridge_of.
      destruct (Py.split "." _) as [|f0 [|f1 [|f2 [|]]]];
        try (right; split; [done|]; by intros (? & [=])).
      destruct (String.eqb f0 "b") eqn:E0; simpl.
      - apply String.eqb_eq in E0 as ->.
        destruct (String.eqb f1 objid) eqn:E1.
        + apply String.eqb_eq in E1 as ->. left. by eexists.
        + right. split; [done|]. intros (? & [= ->]).
          by rewrite String.eqb_refl in E1.
      - right. split; [done|]. intros (? & [= ->]). done. }
    + exists true. split.
      * apply scan_bridges_found. exists l. split; [apply list_elem_of_here|done].
      * split; [|done]. intros _. exists l. split; [apply list_elem_of_here|done].
    + exists b. rewrite E. split; [done|]. rewrite Hb. split.
      * intros (line & Hin & Hn). exists line. split; [by apply list_elem_of_further|done].
      * intros (line & Hin & Hn). apply elem_of_cons in Hin as [->|Hin]; [done|].
        by exists line.
Qed.

(** X1: whenever [brctl show] can be run, [detectoldbridge] returns, leaves
    the network object alone, and answers [True] exactly when some bridge
    listed after the header line is named b.<objid>.<suffix>; the exit
    status of the command plays no part. *)
Theorem detectoldbridge_iff (self : t) (w w' : W) (retstat : Z) (retstr : string) :
  exec [BRCTL_BIN; "show"] w = (Some (retstat, retstr), w') ->
  exists b,
    detectoldbridge (self, w) = (Ok b, (self, w'))
    /\ (b = true <->
        exists name, name ∈ bridges retstr /\ names_bridge_of (objid self) name).
Proof.
  intros Hshow.
  destruct (scan_bridges_spec (objid self) (tail (Py.split Py.newline retstr)))
    as (b & E & Hb).
  exists b. split.
  - unfold detectoldbridge, cmdresult, spawn. unfold_monad.
    rewrite Hshow. simpl. by rewrite E.
  - rewrite Hb. unfold bridges. split.
    + intros (line & Hin & Hn). eexists. split; [|exact Hn].
      apply list_elem_of_fmap. by exists line.
    + intros (name & Hin & Hn).
      apply list_elem_of_fmap in Hin as (line & -> & Hl). by exists line.
Qed.

(** [startup] is detection, then bringing the bridge up, then joining the
    server interface. *)
Lemma startup_phases s :
  startup s
  = (old ← detectoldbridge;
     if (old : bool) then mret tt else self ← bring_up; join_server self) s.
Proof.
  unfold startup, bring_up, join_server. unfold_monad.
  destruct (detectoldbridge s) as [[[]|e] s0]; try done.
  destruct (LxBrNet_startup s0) as [[[]|e] s1]; try done.
  cbn [fst snd].
  destruct (if truthy (hostid s1.1) then _ else _) as [addr|e]; try done.
  destruct (if assign_address s1.1 then _ else _) as [[[]|e] s2]; try done.
  destruct (updown_script s1.1) as [script|]; [|done].
  by destruct (check_call _ s2) as [[[]|e] s3].
Qed.

(** X2: the address is computed before [assign_address] is looked at and
    after the bridge is created: a host id the prefix rejects makes
    [startup] raise the prefix's error, with the bridge already brought up
    by the base and nothing after it done. *)
Theorem startup_invalid_hostid (self : t) (w : W) s0 s1 e :
  detectoldbridge (self, w) = (Ok false, s0) ->
  LxBrNet_startup s0 = (Ok tt, s1) ->
  truthy (hostid s1.1) = true ->
  prefix_addr (prefix s1.1) (default 0 (hostid s1.1)) = Raise e ->
  startup (self, w) = (Raise e, s1).
Proof.
  intros Hdetect Hbase Hid Haddr. unfold startup.
  erewrite bind_ok by exact Hdetect. cbn iota.
  erewrite bind_ok by exact Hbase.
  erewrite bind_ok by reflexivity. cbn [fst snd].
  rewrite Hid, Haddr. done.
Qed.

(** The join returns unless a program cannot be spawned, and leaves the
    network object alone. *)
Lemma join_server_outcome self s :
  ((join_server self s).1 = Ok tt \/ (join_server self s).1 = Raise OSError)
  /\ (join_server self s).2.1 = s.1.
Proof.
  unfold join_server. destruct (serverintf self) as [intf|]; [|by split; [left|]].
  unfold try_except, check_call, spawn. unfold_monad. destruct s as [r w].
  cbn [fst snd].
  destruct (exec _ w) as [[[st out]|] w1]; simpl; [|by split; [right|]].
  destruct (st =? 0); simpl; [|by split; [left|]].
  destruct (exec _ w1) as [[[st' out']|] w2]; simpl; [|by split; [right|]].
  destruct (st' =? 0); simpl; by split; [left|].
Qed.

(** X3: once the bridge is up and configured, a failure of the commands
    that join the server interface does not fail [startup]: it returns, or
    raises [OSError] when a program cannot be spawned, never
    [CalledProcessError]; and the network object is as bringing up left it. *)
Theorem startup_join_tolerated (self : t) (w : W) s0 self1 s1 :
  detectoldbridge (self, w) = (Ok false, s0) ->
  bring_up s0 = (Ok self1, s1) ->
  ((startup (self, w)).1 = Ok tt \/ (startup (self, w)).1 = Raise OSError)
  /\ (startup (self, w)).2.1 = s1.1.
Proof.
  intros Hdetect Hup. rewrite startup_phases.
  erewrite bind_ok by exact Hdetect. cbn iota.
  erewrite bind_ok by exact Hup. apply join_server_outcome.
Qed.

(** X4: when [brctl addif] exits with an error, [startup] returns without
    trying to set the server interface up. *)
Theorem startup_join_stops (self : t) (w : W) s0 self1 r1 w1 intf status out w2 :
  detectoldbridge (self, w) = (Ok false, s0) ->
  bring_up s0 = (Ok self1, (r1, w1)) ->
  serverintf self1 = Some intf ->
  exec [BRCTL_BIN; "addif"; brname self1; intf] w1 = (Some (status, out), w2) ->
  status <> 0 ->
  startup (self, w) = (Ok tt, (r1, w2)).
Proof.
  intros Hdetect Hup Hintf Hadd Hst. rewrite startup_phases.
  erewrite bind_ok by exact Hdetect. cbn iota.
  erewrite bind_ok by exact Hup. unfold join_server. rewrite Hintf.
  unfold try_except.
  erewrite bind_raise by (eapply check_call_failed; [exact Hadd|exact Hst]).
  done.
Qed.

(** X5: in [shutdown] a failing [brctl delif] is passed over: with no
    updown script, [shutdown] is the base's shutdown on the host as the
    attempt left it, whatever the exit status was. *)
Theorem shutdown_delif_tolerated (self : t) (w w1 : W) intf status out :
  serverintf self = Some intf ->
  updown_script self = None ->
  exec [BRCTL_BIN; "delif"; brname self; intf] w = (Some (status, out), w1) ->
  shutdown (self, w) = LxBrNet_shutdown (self, w1).
Proof.
  intros Hintf Hscript Hdel.
  assert (detach_server (self, w) = (Ok tt, (self, w1))) as Hdetach.
  { unfold detach_server. erewrite bind_ok by reflexivity. cbn [fst snd].
    rewrite Hintf. unfold try_except, check_call, spawn. unfold_monad.
    rewrite Hdel. by destruct (status =? 0). }
  unfold shutdown. erewrite bind_ok by exact Hdetach.
  erewrite bind_ok by reflexivity. cbn [fst snd]. rewrite Hscript.
  by erewrite bind_ok by reflexivity.
Qed.

(** X6: a failing updown script is not passed over: [shutdown] raises
    [CalledProcessError] and the base's shutdown is not run, so the host is
    as the script left it. *)
Theorem shutdown_script_failure (self : t) (w w1 w2 : W) script status out :
  detach_server (self, w) = (Ok tt, (self, w1)) ->
  updown_script self = Some script ->
  exec [script; brname self; "shutdown"] w1 = (Some (status, out), w2) ->
  status <> 0 ->
  shutdown (self, w) = (Raise CalledProcessError, (self, w2)).
Proof.
  intros Hdetach Hscript Hrun Hst.
  unfold shutdown. erewrite bind_ok by exact Hdetach.
  erewrite bind_ok by reflexivity. cbn [fst snd]. rewrite Hscript.
  by erewrite bind_raise by (eapply check_call_failed; [exact Hrun|exact Hst]).
Qed.

End CtrlNetLifeFacts.

(** ** PtpNet: capacity, and when the link data can be built *)

Section PtpNetLifeFacts.
Context {RT : Runtime} {B : LxBrNet.Base}.
Import PtpNet PtpNetLife.

(** X7: if the base registers at most the interface it is given, a
    network that holds at most 2 interfaces holds at most 2 after any
    series of [attach] calls, whichever of them raise. *)
Theorem attach_each_capacity (l : list PyCoreNetIf) (self : LxBrNet.t) :
  base_adds_one ->
  (length (LxBrNet._netif self) <= 2)%nat ->
  (length (LxBrNet._netif (attach_each l self)) <= 2)%nat.
Proof.
  intros Hbase. revert self. unfold attach_each.
  induction l as [|netif l IH]; intros self Hlen; [done|].
  simpl. apply IH. unfold attach. erewrite bind_ok by reflexivity.
  destruct (2 <=? _) eqn:E; [done|].
  apply Z.leb_gt in E. specialize (Hbase netif self). lia.
Qed.

Lemma scan_addrlist_ok l : forall acc,
  is_ok (scan_addrlist acc l)
  = forallb (fun address => is_ok (decode address)) l.
Proof.
  induction l as [|a l IH]; intros acc; [done|].
  simpl. rewrite scan_address_decode.
  destruct (decode a) as [d|e]; simpl; [apply IH|done].
Qed.

(** X8: on a network of two interfaces [all_link_data] returns exactly
    when both interfaces have an owning node and all their addresses
    decode; otherwise it raises. *)
Theorem all_link_data_returns_iff (id linktype i1 i2 flags : Z)
    (if1 if2 : PyCoreNetIf) :
  is_ok (all_link_data
           {| LxBrNet.objid := id; LxBrNet._netif := [(i1, if1); (i2, if2)];
              LxBrNet.linktype := linktype |} flags)
  = describable if1 && describable if2.
Proof.
  unfold all_link_data, describable, node_of. simpl.
  rewrite <- (scan_addrlist_ok (addrlist if1) no_addrs),
          <- (scan_addrlist_ok (addrlist if2) no_addrs).
  destruct (scan_addrlist no_addrs (addrlist if1)) as [a1|e]; simpl;
    [|by destruct (node if1)].
  destruct (scan_addrlist no_addrs (addrlist if2)) as [a2|e]; simpl;
    [|by destruct (node if1), (node if2)].
  destruct (node if1) as [n1|]; simpl; [|done].
  destruct (node if2) as [n2|]; simpl; [|done].
  by destruct (decide _).
Qed.

(** X9: with two interfaces whose addresses all decode, an interface
    without an owning node makes [all_link_data] raise
    [AttributeError]. *)
Theorem all_link_data_unowned (self : LxBrNet.t) (flags i1 i2 : Z)
    (if1 if2 : PyCoreNetIf) :
  LxBrNet._netif self = [(i1, if1); (i2, if2)] ->
  forallb (fun address => is_ok (decode address)) (addrlist if1 ++ addrlist if2) = true ->
  node if1 = None \/ node if2 = None ->
  all_link_data self flags = Raise AttributeError.
Proof.
  intros Hreg Hdec Hnode. rewrite forallb_app in Hdec.
  apply andb_prop in Hdec as [H1 H2].
  destruct (decodable _ H1) as [ds1 Hd1]. destruct (decodable _ H2) as [ds2 Hd2].
  unfold all_link_data, node_of. rewrite Hreg. simpl.
  rewrite (scan_addrlist_decoded _ _ _ Hd1), (scan_addrlist_decoded _ _ _ Hd2).
  simpl. destruct Hnode as [->| ->]; [done|]. by destruct (node if1).
Qed.

Lemma scan_addrlist_first_bad good bad rest e : forall acc,
  forallb (fun address => is_ok (decode address)) good = true ->
  decode bad = Raise e ->
  scan_addrlist acc (good ++ bad :: rest) = Raise e.
Proof.
  induction good as [|a good IH]; intros acc Hgood Hbad; simpl.
  - rewrite scan_address_decode, Hbad. done.
  - simpl in Hgood. apply andb_prop in Hgood as [Ha Hgood].
    rewrite scan_address_decode. destruct (decode a) as [d|]; [|done].
    simpl. by apply IH.
Qed.

(** X10: the addresses of the first interface are decoded before anything
    else is looked at: the first of them that does not decode decides the
    exception [all_link_data] raises, whatever the second interface and
    the owning nodes are. *)
Theorem all_link_data_first_bad_address (self : LxBrNet.t) (flags i1 i2 : Z)
    (if1 if2 : PyCoreNetIf) (good rest : list string) (bad : string) (e : exn) :
  LxBrNet._netif self = [(i1, if1); (i2, if2)] ->
  addrlist if1 = good ++ bad :: rest ->
  forallb (fun address => is_ok (decode address)) good = true ->
  decode bad = Raise e ->
  all_link_data self flags = Raise e.
Proof.
  intros Hreg Hlist Hgood Hbad. unfold all_link_data. rewrite Hreg. simpl.
  by rewrite Hlist, (scan_addrlist_first_bad good bad rest e).
Qed.

End PtpNetLifeFacts.


(** ** WlanNode: binding and updating models *)

Section WlanNodeLifeFacts.
Context {Values : Type} {MC : WlanNode.ModelCode Values}.
Import WlanNode WlanNodeLife.

(** What [setmodel] does with a wireless-class model. *)
Lemma setmodel_wireless_run (cls : ModelClass) (config : Values) (self : t Values) :
  cls_config_type cls = WIRELESS ->
  exists self',
    setmodel cls config self = (Ok tt, self')
    /\ model self' = Some (instance_of cls config)
    /\ mobility self' = mobility self
    /\ match cls_position_callback cls with
       | Some hook =>
           _netif self' = hooked hook (_netif self)
           /\ calls self'
              = calls self ++ invocations hook (_netif self)
                  ++ [call_setlinkparams (cls_name cls)]
       | None =>
           _netif self' = _netif self
           /\ calls self' = calls self ++ [call_setlinkparams (cls_name cls)]
       end.
Proof.
  intros Hkind. unfold setmodel, wire_model, setlinkparams. unfold_monad.
  rewrite Hkind. simpl.
  destruct (cls_position_callback cls) as [hook|] eqn:Hcb; simpl.
  - rewrite wire_netifs_spec. simpl. eexists. split; [reflexivity|].
    unfold instance_of. rewrite Hkind, Hcb. simpl. by rewrite <- app_assoc.
  - eexists. split; [reflexivity|]. unfold instance_of. by rewrite Hkind, Hcb.
Qed.

(** What [setmodel] does with a model of another kind. *)
Lemma setmodel_other_run (cls : ModelClass) (config : Values) (self : t Values) :
  cls_config_type cls <> WIRELESS ->
  exists self',
    setmodel cls config self = (Ok tt, self')
    /\ model self' = model self
    /\ _netif self' = _netif self
    /\ calls self' = calls self
    /\ mobility self'
       = if decide (cls_config_type cls = MOBILITY)
         then Some (instance_of cls config) else mobility self.
Proof.
  intros Hkind. unfold setmodel. unfold_monad.
  destruct (decide (cls_config_type cls = WIRELESS)); [done|].
  destruct (decide (cls_config_type cls = MOBILITY)); eexists; split; done.
Qed.

(** X11: [setmodel] with a wireless-class model binds a new instance of
    it as the wireless model and wires it as [updatemodel] does: a callback
    of the model is stored on every attached interface and called once for
    every interface that has an owning node, with that node's position,
    and then the link parameters are applied.  The mobility model is not
    touched. *)
Theorem setmodel_wireless (cls : ModelClass) (config : Values) (self : t Values) :
  cls_config_type cls = WIRELESS ->
  exists self',
    setmodel cls config self = (Ok tt, self')
    /\ model self' = Some (instance_of cls config)
    /\ mobility self' = mobility self
    /\ match cls_position_callback cls with
       | Some hook =>
           _netif self' = hooked hook (_netif self)
           /\ calls self'
              = calls self ++ invocations hook (_netif self)
                  ++ [call_setlinkparams (cls_name cls)]
       | None =>
           _netif self' = _netif self
           /\ calls self' = calls self ++ [call_setlinkparams (cls_name cls)]
       end.
Proof. apply setmodel_wireless_run. Qed.

(** X12: [setmodel] with a model that is not wireless-class leaves the
    wireless model, the interfaces and their hooks alone and calls
    nothing; a mobility-class model becomes the mobility model, a model
    of any other kind is dropped. *)
Theorem setmodel_not_wireless (cls : ModelClass) (config : Values) (self : t Values) :
  cls_config_type cls <> WIRELESS ->
  exists self',
    setmodel cls config self = (Ok tt, self')
    /\ model self' = model self
    /\ _netif self' = _netif self
    /\ calls self' = calls self
    /\ mobility self'
       = if decide (cls_config_type cls = MOBILITY)
         then Some (instance_of cls config) else mobility self.
Proof. apply setmodel_other_run. Qed.

(** What either call does to the bound wireless model: it stays unbound,
    or keeps its name, kind and callback, or is replaced by a fresh
    wireless instance. *)
Lemma step_model self self' :
  step self self' ->
  model self' = model self
  \/ (exists m v, model self = Some m /\ model self' = Some (with_values v m))
  \/ (exists m', model self' = Some m' /\ config_type m' = WIRELESS).
Proof.
  intros [cls config s|model_name vals s].
  - destruct (decide (cls_config_type cls = WIRELESS)) as [Hkind|Hkind].
    + destruct (setmodel_wireless_run cls config s Hkind) as (s' & -> & Hm & _).
      right. right. eexists. split; [exact Hm|done].
    + destruct (setmodel_other_run cls config s Hkind) as (s' & -> & Hm & _).
      by left.
  - unfold updatemodel, wire_model, setlinkparams. unfold_monad.
    destruct (model s) as [m|] eqn:Hm; [|by left].
    destruct (negb _); [by left|].
    destruct (decide _); [|by left].
    destruct (updateconfig m vals) as [[] v]; simpl.
    + right. left. exists m, v. split; [done|]. unfold with_values.
      destruct (position_callback m) as [hook|]; simpl; [|done].
      by rewrite wire_netifs_spec.
    + right. left. by exists m, v.
Qed.

(** X13: the bound wireless model is always of the wireless kind: on a
    WLAN reached from one without a model by [setmodel] and [updatemodel]
    calls, the kind test in [updatemodel] never fails. *)
Theorem bound_model_wireless (self : t Values) (m : Model Values) :
  reachable self -> model self = Some m -> config_type m = WIRELESS.
Proof.
  intros (self0 & Hnone & Hsteps). revert m.
  apply (rtc_ind_r (R := step)
           (fun s => forall m, model s = Some m -> config_type m = WIRELESS) self0);
    [by intros m; rewrite Hnone| |exact Hsteps].
  intros s1 s2 _ Hstep IH m Hm.
  destruct (step_model _ _ Hstep) as [E|[(m0 & v & E0 & E)|(m' & E & Hk)]].
  - apply IH. by rewrite <- E.
  - rewrite E in Hm. injection Hm as <-. simpl. by apply IH.
  - rewrite E in Hm. by injection Hm as <-.
Qed.

Lemma same_but_hooks_refl (l : list (Z * PyCoreNetIf)) : same_but_hooks l l.
Proof. unfold same_but_hooks. by induction l; constructor. Qed.

Lemma same_but_hooks_hooked hook (l : list (Z * PyCoreNetIf)) :
  same_but_hooks l (hooked hook l).
Proof.
  unfold same_but_hooks, hooked. induction l as [|[i netif] l IH]; simpl.
  - constructor.
  - constructor; [done|exact IH].
Qed.

(** X14: neither [setmodel] nor [updatemodel] attaches or detaches an
    interface, reorders the registry, or changes anything of an interface
    but its position hook. *)
Theorem models_keep_registry (self self' : t Values) :
  step self self' -> same_but_hooks (_netif self) (_netif self').
Proof.
  intros [cls config s|model_name vals s].
  - destruct (decide (cls_config_type cls = WIRELESS)) as [Hkind|Hkind].
    + destruct (setmodel_wireless_run cls config s Hkind) as (s' & -> & _ & _ & Hw).
      simpl. destruct (cls_position_callback cls) as [hook|].
      * destruct Hw as [-> _]. apply same_but_hooks_hooked.
      * destruct Hw as [-> _]. apply same_but_hooks_refl.
    + destruct (setmodel_other_run cls config s Hkind) as (s' & -> & _ & Hn & _).
      simpl. rewrite Hn. apply same_but_hooks_refl.
  - unfold updatemodel, wire_model, setlinkparams. unfold_monad.
    destruct (model s) as [m|]; [|apply same_but_hooks_refl].
    destruct (negb _); [apply same_but_hooks_refl|].
    destruct (decide _); [|apply same_but_hooks_refl].
    destruct (updateconfig m vals) as [[] v]; simpl; [|apply same_but_hooks_refl].
    destruct (position_callback m) as [hook|]; simpl; [|apply same_but_hooks_refl].
    rewrite wire_netifs_spec. simpl. apply same_but_hooks_hooked.
Qed.

(** X15: [setmodel] with a wireless-class model followed by [updatemodel]
    under another name is [setmodel] alone: the update changes nothing. *)
Theorem setmodel_then_updatemodel_other (cls : ModelClass) (config vals : Values)
    (model_name : string) (self : t Values) :
  cls_config_type cls = WIRELESS -> cls_name cls <> model_name ->
  updatemodel model_name vals (setmodel cls config self).2
  = (Ok tt, (setmodel cls config self).2).
Proof.
  intros Hkind Hname.
  destruct (setmodel_wireless_run cls config self Hkind) as (s' & -> & Hm & _).
  simpl. unfold updatemodel. unfold_monad. rewrite Hm. simpl.
  apply String.eqb_neq in Hname. by rewrite Hname.
Qed.

(** X16: an update the model does not accept wires nothing: no callback
    is stored, no call is made, and the WLAN differs from before at most
    in the configuration the model holds. *)
Theorem updatemodel_rejected (self : t Values) (m : Model Values)
    (vals vals' : Values) :
  model self = Some m -> config_type m = WIRELESS ->
  updateconfig m vals = (false, vals') ->
  updatemodel (name m) vals self
  = (Ok tt, with_model (Some (with_values vals' m)) self).
Proof.
  intros Hm Hkind Hupd. unfold updatemodel. unfold_monad.
  rewrite Hm, String.eqb_refl. simpl.
  destruct (decide _); [|done]. by rewrite Hupd.
Qed.

End WlanNodeLifeFacts.

(** ** RJ45Node: what the calls leave behind *)

Section RJ45NodeLifeFacts.
Context {W : Type} {H : Host W} {K : constants.t} {N : RJ45Node.Networks W}.
Import RJ45Node RJ45NodeLookup.

#[local] Arguments for_each : simpl never.

Lemma for_each_invariant {St A} (P : St -> Prop) (xs : list A)
    (body : A -> M St unit) :
  (forall x s, P s -> P (body x s).2) ->
  forall s, P s -> P (for_each xs body s).2.
Proof.
  intros Hbody. induction xs as [|x xs IH]; intros s Hs; [done|].
  unfold for_each; fold @for_each. unfold Py.bind.
  specialize (Hbody x s Hs). destruct (body x s) as [[[]|e] s1]; simpl in *; auto.
Qed.

(** The address loop of [newnetif] keeps whatever the address list is
    no part of. *)
Lemma newnetif_tail_keeps {X} (f : t -> X) (addrlist_ : option (list string)) :
  (forall l r, f (with_addrlist l r) = f r) ->
  keeps (fun s : t * W => f s.1)
    (match addrlist_ with
     | Some (addr :: l) => for_each (addr :: l) addaddr
     | _ => mret tt
     end).
Proof.
  intros Hf. destruct addrlist_ as [[|a l]|]; try apply keeps_ret.
  apply keeps_for_each. intros addr. unfold addaddr.
  apply keeps_bind; [apply keeps_getself|]. intros self.
  apply keeps_bind.
  { destruct (up self); [apply (keeps_check_call f) | apply keeps_ret]. }
  intros _. apply (keeps_setself f). intros r. apply Hf.
Qed.

Lemma bind_ok_inv {St A B} (m : M St A) (k : A -> M St B) s b s2 :
  (m ≫= k) s = (Ok b, s2) ->
  exists a s1, m s = (Ok a, s1) /\ k a s1 = (Ok b, s2).
Proof.
  unfold mbind, M_bind, Py.bind. destruct (m s) as [[a|e] s1]; [|done]. eauto.
Qed.

(** What a [newnetif] that returned has done to the node. *)
Lemma newnetif_returned net_ addrlist_ hwaddr ifindex_ ifname s idx s1 :
  newnetif net_ addrlist_ hwaddr ifindex_ ifname s = (Ok idx, s1) ->
  idx = default 0 ifindex_
  /\ net s.1 = None
  /\ net s1.1 = net_
  /\ ifindex s1.1 = Some idx
  /\ _netif s1.1 = <[idx := objid s.1]> (_netif s.1)
  /\ objid s1.1 = objid s.1.
Proof.
  destruct s as [r w]. unfold newnetif. intros Hrun.
  apply bind_ok_inv in Hrun as (self & sa & [= <- <-] & Hrun). cbn [fst snd] in *.
  destruct (bool_decide (net r <> None)) eqn:E; [done|].
  apply bool_decide_eq_false in E.
  assert (net r = None) as Hnet by (by destruct (net r); [destruct E|]).
  apply bind_ok_inv in Hrun as ([] & sa & [= <-] & Hrun).
  apply bind_ok_inv in Hrun as ([] & sb & [= <-] & Hrun).
  apply bind_ok_inv in Hrun as ([] & sc & [= <-] & Hrun).
  cbn [fst snd] in Hrun.
  apply bind_ok_inv in Hrun as ([] & sd & Hattach & Hrun).
  apply bind_ok_inv in Hrun as ([] & se & Htail & [= <- <-]).
  pose proof (newnetif_tail_keeps (fun r => (attachment r, objid r)) addrlist_
                (fun _ _ => eq_refl) sd) as Hk.
  rewrite Htail in Hk. cbn [fst snd] in Hk.
  assert (attachment sd.1
          = (net_, <[default 0 ifindex_ := objid r]> (_netif r),
             Some (default 0 ifindex_)) /\ objid sd.1 = objid r) as [Hsd Hid].
  { destruct net_ as [n|].
    - unfold attachnet in Hattach.
      apply bind_ok_inv in Hattach as (self & sx & [= <- <-] & Hattach).
      apply bind_ok_inv in Hattach as ([] & sy & Hnet_attach & [= <-]).
      cbn [fst snd] in Hnet_attach.
      destruct (net_attach _ _ w) as [[[]|e] w1]; [|done].
      by injection Hnet_attach as <-.
    - injection Hattach as <-. unfold attachment. cbn. by rewrite Hnet. }
  rewrite Hsd, Hid in Hk. unfold attachment in Hk. injection Hk as -> -> -> ->.
  done.
Qed.

(** X17: after a [newnetif] that returned index [idx], the node is found
    under that index and under the network it was given, [getifindex] of
    the node itself is [idx], and nothing is found under another index or
    for another object. *)
Theorem newnetif_then_lookup net_ addrlist_ hwaddr ifindex_ ifname s idx s1 :
  newnetif net_ addrlist_ hwaddr ifindex_ ifname s = (Ok idx, s1) ->
  netif (Some idx) None s1.1 = Some (objid s.1)
  /\ getifindex (objid s.1) s1.1 = Some idx
  /\ (forall n j, net_ = Some n -> netif j (Some n) s1.1 = Some (objid s.1))
  /\ (forall j, j <> idx -> netif (Some j) None s1.1 = None)
  /\ (forall o, o <> objid s.1 -> getifindex o s1.1 = None).
Proof.
  intros Hrun.
  destruct (newnetif_returned _ _ _ _ _ _ _ _ Hrun) as (_ & _ & Hnet & Hidx & _ & Hid).
  unfold netif, getifindex. rewrite Hidx, Hnet, Hid. repeat split.
  - rewrite bool_decide_eq_false_2 by (intros [Hn _]; by apply Hn).
    by rewrite bool_decide_eq_true_2.
  - by rewrite bool_decide_eq_false_2 by (by intros ?).
  - intros n j ->. by rewrite bool_decide_eq_true_2.
  - intros j Hj. rewrite bool_decide_eq_false_2 by (intros [Hn _]; by apply Hn).
    rewrite bool_decide_eq_false_2; [done|]. intros [= ->]. done.
  - intros o Ho. by rewrite bool_decide_eq_true_2.
Qed.

(** What [delnetif] leaves of the attachment, however it ends: the index
    asked for is out of the registry, nothing else has changed. *)
Lemma delnetif_attachment ifindex_ s :
  attachment (delnetif ifindex_ s).2.1
  = (net s.1, delete (default 0 ifindex_) (_netif s.1), ifindex s.1).
Proof.
  destruct s as [r w]. unfold delnetif. unfold_monad. cbn [fst snd].
  destruct (bool_decide (_netif r !! default 0 ifindex_ = None)) eqn:E.
  - apply bool_decide_eq_true in E. cbn. unfold attachment. by rewrite delete_id.
  - cbn. destruct (bool_decide (Some (default 0 ifindex_) = ifindex r));
      [|reflexivity].
    exact (shutdown_keeps (with_netif (delete (default 0 ifindex_) (_netif r)) r, w)).
Qed.

(** X18: [delnetif] does not detach the network: once a [newnetif] with
    a network has returned, every later [newnetif] raises the capacity
    error and changes nothing, also after [delnetif] has emptied the
    registry. *)
Theorem newnetif_after_delnetif n addrlist_ hwaddr ifindex_ ifname s idx s1
    (deleted : option Z) net' addrlist' hwaddr' ifindex' ifname' :
  newnetif (Some n) addrlist_ hwaddr ifindex_ ifname s = (Ok idx, s1) ->
  let s2 := (delnetif deleted s1).2 in
  newnetif net' addrlist' hwaddr' ifindex' ifname' s2
  = (Raise (ValueError "RJ45 nodes support at most 1 network interface"), s2).
Proof.
  intros Hrun s2.
  destruct (newnetif_returned _ _ _ _ _ _ _ _ Hrun) as (_ & _ & Hnet & _).
  pose proof (delnetif_attachment deleted s1) as Hatt. fold s2 in Hatt.
  unfold attachment in Hatt. injection Hatt as Hnet2 _ _. rewrite Hnet in Hnet2.
  unfold newnetif. erewrite bind_ok by reflexivity.
  rewrite Hnet2. by rewrite bool_decide_eq_true_2.
Qed.

(** X19: the node registers itself before the network is asked: when the
    network's [attach] raises, [newnetif] raises the same exception and
    leaves the node registered under the index, with that [ifindex], and
    without a network. *)
Theorem newnetif_failed_attach (self : t) (w w1 : W) (n : Z) (e : exn)
    addrlist_ hwaddr ifindex_ ifname :
  net self = None ->
  net_attach n (objid self) w = (Raise e, w1) ->
  exists self',
    newnetif (Some n) addrlist_ hwaddr ifindex_ ifname (self, w)
    = (Raise e, (self', w1))
    /\ _netif self' = <[default 0 ifindex_ := objid self]> (_netif self)
    /\ ifindex self' = Some (default 0 ifindex_)
    /\ net self' = None.
Proof.
  intros Hnet Hatt. unfold newnetif, attachnet. unfold_monad.
  rewrite bool_decide_eq_false_2 by (by intros ?). cbn.
  rewrite Hatt. eexists. split; [reflexivity|]. by cbn.
Qed.

(** X20: however [delnetif] ends, the index asked for (0 by default) is
    afterwards not registered, every other index is registered as before,
    and the node's network and [ifindex] are what they were. *)
Theorem delnetif_removes_key (ifindex_ : option Z) (s : t * W) :
  let s' := (delnetif ifindex_ s).2 in
  _netif s'.1 !! default 0 ifindex_ = None
  /\ (forall j, j <> default 0 ifindex_ -> _netif s'.1 !! j = _netif s.1 !! j)
  /\ net s'.1 = net s.1
  /\ ifindex s'.1 = ifindex s.1.
Proof.
  intros s'. pose proof (delnetif_attachment ifindex_ s) as Hatt. fold s' in Hatt.
  unfold attachment in Hatt. injection Hatt as -> -> ->.
  repeat split; [apply lookup_delete_eq|].
  intros j Hj. by apply lookup_delete_ne.
Qed.

(** A [shutdown] that returned has left the node down. *)
Lemma shutdown_returned s s' : shutdown s = (Ok tt, s') -> up s'.1 = false.
Proof.
  destruct s as [r w]. unfold shutdown. intros Hrun.
  apply bind_ok_inv in Hrun as (self & sa & [= <- <-] & Hrun). cbn [fst snd] in *.
  destruct (up r) eqn:Hup; cbn [negb] in Hrun; [|by injection Hrun as <-].
  apply bind_ok_inv in Hrun as ([] & sa & _ & Hrun).
  apply bind_ok_inv in Hrun as ([] & sb & _ & Hrun).
  apply bind_ok_inv in Hrun as (st & sc & _ & Hrun).
  apply bind_ok_inv in Hrun as ([] & sd & [= <-] & Hrun).
  pose proof (restorestate_keeps_self (with_up false sc.1, sc.2)) as Hk.
  rewrite Hrun in Hk. cbn in Hk. unfold id in Hk. by rewrite Hk.
Qed.

(** X21: [shutdown] of a node that is down does nothing, and a [shutdown]
    that returned leaves the node down: calling it again does nothing,
    on the node or on the host. *)
Theorem shutdown_twice (s : t * W) :
  (up s.1 = false -> shutdown s = (Ok tt, s))
  /\ (forall s', shutdown s = (Ok tt, s') -> shutdown s' = (Ok tt, s')).
Proof.
  assert (forall x : t * W, up x.1 = false -> shutdown x = (Ok tt, x)) as Hdown.
  { intros x Hx. unfold shutdown. erewrite bind_ok by reflexivity. by rewrite Hx. }
  split; [apply Hdown|]. intros s' Hrun. apply Hdown. by eapply shutdown_returned.
Qed.

(** X22: the node is marked down before its state is restored: when the
    three commands that take the device down succeed and [restorestate]
    then raises, [shutdown] raises the same exception with the node marked
    down, so that a later [shutdown] does nothing and the rest of the
    snapshot is never put back. *)
Theorem shutdown_failed_restore (r : t) (w w1 w2 w3 : W) out1 out2 status out3
    (e : exn) (s4 : t * W) :
  up r = true ->
  exec [IP_BIN; "link"; "set"; localname r; "down"] w = (Some (0, out1), w1) ->
  exec [IP_BIN; "addr"; "flush"; "dev"; localname r] w1 = (Some (0, out2), w2) ->
  exec [TC_BIN; "qdisc"; "del"; "dev"; localname r; "root"] w2
  = (Some (status, out3), w3) ->
  restorestate (with_up false r, w3) = (Raise e, s4) ->
  shutdown (r, w) = (Raise e, s4)
  /\ up s4.1 = false
  /\ shutdown s4 = (Ok tt, s4).
Proof.
  intros Hup Hdown Hflush Htc Hrestore.
  assert (up s4.1 = false) as Hup4.
  { pose proof (restorestate_keeps_self (with_up false r, w3)) as Hk.
    rewrite Hrestore in Hk. cbn in Hk. unfold id in Hk. by rewrite Hk. }
  split; [|split; [exact Hup4|]].
  - unfold shutdown. erewrite bind_ok by reflexivity. cbn [fst snd].
    rewrite Hup. cbn [negb].
    erewrite bind_ok by (eapply check_call_ok; exact Hdown).
    erewrite bind_ok by (eapply check_call_ok; exact Hflush).
    erewrite bind_ok by (eapply mutecall_ok; exact Htc).
    erewrite bind_ok by reflexivity. exact Hrestore.
  - unfold shutdown. erewrite bind_ok by reflexivity. by rewrite Hup4.
Qed.

(** X23: when [ip] cannot be spawned, the snapshot fails on the unbound
    result of the spawn and [startup] raises [UnboundLocalError]: the
    snapshot is reset, the link is not touched and the node stays as it
    was otherwise. *)
Theorem startup_spawn_failure (r : t) (w w' : W) :
  exec [IP_BIN; "addr"; "show"; "dev"; localname r] w = (None, w') ->
  startup (r, w) = (Raise UnboundLocalError, (cleared r, w')).
Proof.
  intros Hspawn. unfold startup.
  erewrite bind_raise; [reflexivity|].
  unfold savestate, spawn. unfold_monad. cbn [fst snd].
  change (localname (with_old_addrs [] (with_old_up false r))) with (localname r).
  by rewrite Hspawn.
Qed.

(** X24: once the snapshot is taken, [startup] returns whatever the exit
    status of [ip link set up] is, and the node is marked up exactly when
    the command succeeded. *)
Theorem startup_link_outcome (s : t * W) (r' : t) (w' w'' : W) status out :
  savestate s = (Ok tt, (r', w')) ->
  exec [IP_BIN; "link"; "set"; localname r'; "up"] w' = (Some (status, out), w'') ->
  startup s = (Ok tt, (if status =? 0 then with_up true r' else r', w'')).
Proof.
  intros Hsave Hlink. unfold startup. erewrite bind_ok by exact Hsave.
  unfold try_except. erewrite bind_ok by reflexivity. cbn [fst snd].
  destruct (status =? 0) eqn:E.
  - apply Z.eqb_eq in E as ->.
    by erewrite bind_ok by (eapply check_call_ok; exact Hlink).
  - apply Z.eqb_neq in E.
    by erewrite bind_raise by (eapply check_call_failed; [exact Hlink|exact E]).
Qed.

(** A line of the listing adds no link-local address to the snapshot. *)
Lemma savestate_line_no_link_local l (s : t * W) :
  no_link_local s.1 -> no_link_local (savestate_line l s).2.1.
Proof.
  destruct s as [r w]. intros Hr. unfold savestate_line. unfold_monad.
  cbn [fst snd]. destruct (_ <? _)%nat; [done|].
  destruct (Py.index _ 0) as [i0|]; [|done].
  destruct (Py.index _ 1) as [i1|]; [|done]. cbn [lift].
  destruct (String.eqb i1 _).
  { destruct (Py.index _ 2) as [i2|]; [|done]. by destruct (bool_decide _). }
  destruct (String.eqb i0 "inet").
  { destruct (Py.index _ 3) as [i3|]; [|done]. cbn.
    intros a [Ha|Ha]%elem_of_app; [by apply Hr|].
    by apply list_elem_of_singleton in Ha. }
  destruct (String.eqb i0 "inet6"); [|done].
  destruct (String.eqb (Py.slice_to 4 i1) "fe80") eqn:E; [done|]. cbn.
  intros a [Ha|Ha]%elem_of_app; [by apply Hr|].
  apply list_elem_of_singleton in Ha as [= ->]. by apply String.eqb_neq.
Qed.

(** X25: whatever the listing is and however [savestate] ends, the
    snapshot holds no IPv6 address that begins with fe80. *)
Theorem savestate_no_link_local (s : t * W) (a : string) :
  (a, None) ∈ old_addrs (savestate s).2.1 -> Py.slice_to 4 a <> "fe80".
Proof.
  revert a. change (no_link_local (savestate s).2.1).
  destruct s as [r w]. unfold savestate, spawn. unfold_monad. cbn [fst snd].
  destruct (exec _ w) as [[[status lines]|] w'];
    [|by intros a Ha; apply elem_of_nil in Ha].
  cbn. destruct (negb _); [by intros a Ha; apply elem_of_nil in Ha|].
  apply (for_each_invariant (fun s : t * W => no_link_local s.1)).
  - intros l s. apply savestate_line_no_link_local.
  - by intros a Ha; apply elem_of_nil in Ha.
Qed.

(** X26: when the listing command exits with an error, [savestate]
    returns with an empty snapshot: up flag false, no address. *)
Theorem savestate_listing_failure (r : t) (w w' : W) status out :
  exec [IP_BIN; "addr"; "show"; "dev"; localname r] w = (Some (status, out), w') ->
  status <> 0 ->
  savestate (r, w) = (Ok tt, (cleared r, w')).
Proof.
  intros Hshow Hst. unfold savestate, spawn. unfold_monad. cbn [fst snd].
  change (localname (with_old_addrs [] (with_old_up false r))) with (localname r).
  rewrite Hshow. apply Z.eqb_neq in Hst. by rewrite Hst.
Qed.

Lemma savestate_line_frame {X} (f : t * W -> X) l :
  (forall b r w, f (with_old_up b r, w) = f (r, w)) ->
  (forall a r w, f (with_old_addrs a r, w) = f (r, w)) ->
  keeps f (savestate_line l).
Proof.
  intros Hup Haddrs.
  assert (forall g, (forall r w, f (g r, w) = f (r, w)) -> keeps f (setself g)) as Hset.
  { intros g Hg [r w]. apply Hg. }
  unfold savestate_line.
  apply keeps_bind; [apply keeps_getself|]. intros self.
  destruct (_ <? _)%nat; [apply keeps_ret|].
  apply keeps_bind; [apply keeps_lift|]. intros i0.
  apply keeps_bind; [apply keeps_lift|]. intros i1.
  destruct (String.eqb i1 _).
  { apply keeps_bind; [apply keeps_lift|]. intros i2.
    destruct (bool_decide _); [by apply Hset | apply keeps_ret]. }
  destruct (String.eqb i0 "inet").
  { apply keeps_bind; [apply keeps_lift|]. intros i3. by apply Hset. }
  destruct (String.eqb i0 "inet6"); [|apply keeps_ret].
  destruct (String.eqb _ "fe80"); [apply keeps_ret | by apply Hset].
Qed.

(** X27: [savestate] writes nothing but the snapshot and does nothing to
    the host but run the listing: with the snapshot cleared the node is
    what it was, and the host is as the listing command left it. *)
Theorem savestate_only_lists (r : t) (w : W) :
  cleared (savestate (r, w)).2.1 = cleared r
  /\ (savestate (r, w)).2.2
     = (exec [IP_BIN; "addr"; "show"; "dev"; localname r] w).2.
Proof.
  unfold savestate, spawn. unfold_monad. cbn [fst snd].
  change (localname (with_old_addrs [] (with_old_up false r))) with (localname r).
  destruct (exec _ w) as [[[status lines]|] w']; cbn; [|done].
  destruct (negb _); [done|].
  pose proof (keeps_for_each (fun s : t * W => (cleared s.1, s.2))
                (Py.split Py.newline lines) savestate_line
                (fun l => savestate_line_frame
                            (fun s : t * W => (cleared s.1, s.2)) l
                            (fun _ _ _ => eq_refl) (fun _ _ _ => eq_refl))
                (with_old_addrs [] (with_old_up false r), w')) as Hk.
  split; [exact (f_equal fst Hk) | exact (f_equal snd Hk)].
Qed.

(** X28: while the node is down [addaddr] runs no command and appends
    the address; while it is up and the host refuses the address,
    [addaddr] raises and the address list is not changed. *)
Theorem addaddr_guard (r : t) (w w' : W) (addr : string) status out :
  (up r = false ->
     addaddr addr (r, w) = (Ok tt, (with_addrlist (addrlist r ++ [addr]) r, w)))
  /\ (up r = true ->
      exec [IP_BIN; "addr"; "add"; addr; "dev"; name r] w = (Some (status, out), w') ->
      status <> 0 ->
      addaddr addr (r, w) = (Raise CalledProcessError, (r, w'))).
Proof.
  split.
  - intros Hup. unfold addaddr. erewrite bind_ok by reflexivity. cbn [fst snd].
    rewrite Hup. by erewrite bind_ok by reflexivity.
  - intros Hup Hadd Hst. unfold addaddr. erewrite bind_ok by reflexivity.
    cbn [fst snd]. rewrite Hup.
    by erewrite bind_raise by (eapply check_call_failed; [exact Hadd|exact Hst]).
Qed.

End RJ45NodeLifeFacts.

(** ** The further properties at concrete inputs *)

Section CtrlNetLifeWitnesses.
Import CtrlNet CtrlNetLife Sample Cases.

Lemma detectoldbridge_iff_witness :
  exists b,
    detectoldbridge (ctrlnet, stale_host)
    = (Ok b, (ctrlnet, {| listing := listing stale_host;
                          commands := [[BRCTL_BIN; "show"]] |}))
    /\ (b = true <->
        exists name, name ∈ bridges (listing stale_host)
                     /\ names_bridge_of (objid ctrlnet) name).
Proof.
  apply (detectoldbridge_iff ctrlnet stale_host _ 0 (listing stale_host)).
  reflexivity.
Defined.

Lemma startup_invalid_hostid_witness :
  startup (misnumbered, refusing [])
  = (Raise (ValueError "invalid hostid for prefix 172.16.0.0/24"),
     (misnumbered,
      {| Fussy.refused := [];
         Fussy.seen := [ [BRCTL_BIN; "show"];
                         [BRCTL_BIN; "addbr"; "b.ctrlnet.77"] ] |})).
Proof.
  apply (startup_invalid_hostid misnumbered (refusing [])
           (misnumbered,
            {| Fussy.refused := []; Fussy.seen := [[BRCTL_BIN; "show"]] |}));
    reflexivity.
Defined.

Lemma startup_join_tolerated_witness :
  let w := refusing [[BRCTL_BIN; "addif"; "b.ctrlnet.77"; "eth9"]] in
  ((startup (ctrlnet, w)).1 = Ok tt \/ (startup (ctrlnet, w)).1 = Raise OSError)
  /\ (startup (ctrlnet, w)).2.1 = ctrlnet.
Proof.
  intros w.
  apply (startup_join_tolerated ctrlnet w (detectoldbridge (ctrlnet, w)).2 ctrlnet
           (ctrlnet, (bring_up (detectoldbridge (ctrlnet, w)).2).2.2));
    vm_compute; reflexivity.
Defined.

Lemma startup_join_stops_witness :
  let w := refusing [[BRCTL_BIN; "addif"; "b.ctrlnet.77"; "eth9"]] in
  startup (ctrlnet, w)
  = (Ok tt,
     (ctrlnet,
      {| Fussy.refused := Fussy.refused w;
         Fussy.seen :=
           [ [BRCTL_BIN; "show"];
             [BRCTL_BIN; "addbr"; "b.ctrlnet.77"];
             [IP_BIN; "addr"; "add"; "172.16.0.254/24"; "dev"; "b.ctrlnet.77"];
             ["/etc/core/updown"; "b.ctrlnet.77"; "startup"];
             [BRCTL_BIN; "addif"; "b.ctrlnet.77"; "eth9"] ] |})).
Proof.
  intros w.
  apply (startup_join_stops ctrlnet w (detectoldbridge (ctrlnet, w)).2 ctrlnet
           ctrlnet (bring_up (detectoldbridge (ctrlnet, w)).2).2.2 "eth9" 1 "");
    try (vm_compute; reflexivity).
  discriminate.
Defined.

Lemma shutdown_delif_tolerated_witness :
  let w := refusing [[BRCTL_BIN; "delif"; "b.ctrlnet.77"; "eth9"]] in
  shutdown (unscripted, w)
  = (Ok tt,
     (unscripted,
      {| Fussy.refused := Fussy.refused w;
         Fussy.seen := [ [BRCTL_BIN; "delif"; "b.ctrlnet.77"; "eth9"];
                         [BRCTL_BIN; "delbr"; "b.ctrlnet.77"] ] |})).
Proof.
  intros w.
  rewrite (shutdown_delif_tolerated unscripted w
             {| Fussy.refused := Fussy.refused w;
                Fussy.seen := [[BRCTL_BIN; "delif"; "b.ctrlnet.77"; "eth9"]] |}
             "eth9" 1 ""); reflexivity.
Defined.

Lemma shutdown_script_failure_witness :
  let w := refusing [["/etc/core/updown"; "b.ctrlnet.77"; "shutdown"]] in
  shutdown (ctrlnet, w)
  = (Raise CalledProcessError,
     (ctrlnet,
      {| Fussy.refused := Fussy.refused w;
         Fussy.seen := [ [BRCTL_BIN; "delif"; "b.ctrlnet.77"; "eth9"];
                         ["/etc/core/updown"; "b.ctrlnet.77"; "shutdown"] ] |})).
Proof.
  intros w.
  apply (shutdown_script_failure ctrlnet w
           {| Fussy.refused := Fussy.refused w;
              Fussy.seen := [[BRCTL_BIN; "delif"; "b.ctrlnet.77"; "eth9"]] |}
           _ "/etc/core/updown" 1 ""); try reflexivity.
  discriminate.
Defined.

End CtrlNetLifeWitnesses.

Section PtpNetLifeWitnesses.
Import PtpNet PtpNetLife Sample Cases.

Lemma attach_each_capacity_witness :
  (length (LxBrNet._netif (attach_each [eth0; eth1; tap] unattached)) <= 2)%nat.
Proof.
  apply attach_each_capacity.
  - intros netif self. simpl. rewrite length_app. simpl. lia.
  - simpl. lia.
Defined.

Lemma all_link_data_unowned_witness :
  all_link_data (ptp [(0, eth0); (1, tap)]) 0 = Raise AttributeError.
Proof.
  apply (all_link_data_unowned _ 0 0 1 eth0 tap);
    [reflexivity | vm_compute; reflexivity | right; reflexivity].
Defined.

Lemma all_link_data_first_bad_address_witness :
  all_link_data (ptp [(0, eth0_mistyped); (1, tap)]) 0
  = Raise (ValueError "invalid literal for int()").
Proof.
  apply (all_link_data_first_bad_address _ 0 0 1 eth0_mistyped tap
           ["10.0.0.1/24"] ["10.0.0.300/24"] "10.0.0.9");
    vm_compute; reflexivity.
Defined.

End PtpNetLifeWitnesses.

Section WlanNodeLifeWitnesses.
Import WlanNode WlanNodeLife Sample Cases.

Lemma setmodel_wireless_witness :
  exists self',
    setmodel range_class ["range=275"] (unbound [(0, eth0); (1, tap)]) = (Ok tt, self')
    /\ model self' = Some basic_range
    /\ mobility self' = None
    /\ _netif self'
       = [(0, set_poshook (Some {| cb_model := "basic_range" |}) eth0);
          (1, set_poshook (Some {| cb_model := "basic_range" |}) tap)]
    /\ calls self'
       = [call_poshook {| cb_model := "basic_range" |}
            (set_poshook (Some {| cb_model := "basic_range" |}) eth0) 100 50 0;
          call_setlinkparams "basic_range"].
Proof.
  destruct (setmodel_wireless range_class ["range=275"]
              (unbound [(0, eth0); (1, tap)]) eq_refl)
    as (self' & E & Hm & Hmob & Hw).
  cbn in Hw. destruct Hw as [Hn Hc].
  exists self'. split; [|split; [|split; [|split]]]; assumption.
Defined.

Lemma setmodel_not_wireless_witness :
  exists self',
    setmodel waypoint_class ["file=sample.ns"] (wlan [(0, eth0)]) = (Ok tt, self')
    /\ model self' = Some basic_range
    /\ _netif self' = [(0, eth0)]
    /\ calls self' = []
    /\ mobility self' = Some (instance_of waypoint_class ["file=sample.ns"]).
Proof.
  apply (setmodel_not_wireless waypoint_class ["file=sample.ns"] (wlan [(0, eth0)])).
  discriminate.
Defined.

Lemma bound_model_wireless_witness :
  let self1 := (setmodel waypoint_class ["file=sample.ns"] (unbound [(0, eth0)])).2 in
  let self2 := (setmodel range_class ["range=275"] self1).2 in
  let self3 := (updatemodel "basic_range" ["range=300"] self2).2 in
  exists m, model self3 = Some m /\ config_type m = WIRELESS.
Proof.
  intros self1 self2 self3. eexists. split; [reflexivity|].
  apply (bound_model_wireless self3); [|reflexivity].
  exists (unbound [(0, eth0)]). split; [reflexivity|].
  eapply rtc_l; [apply step_setmodel|].
  eapply rtc_l; [apply step_setmodel|].
  apply rtc_once, step_updatemodel.
Defined.

Lemma models_keep_registry_witness :
  same_but_hooks [(0, eth0); (1, tap)]
    (_netif (updatemodel "basic_range" ["range=300"] (wlan [(0, eth0); (1, tap)])).2).
Proof.
  apply (models_keep_registry (wlan [(0, eth0); (1, tap)])), step_updatemodel.
Defined.

Lemma setmodel_then_updatemodel_other_witness :
  let self1 := (setmodel range_class ["range=275"] (unbound [(0, eth0)])).2 in
  updatemodel "emane" ["range=300"] self1 = (Ok tt, self1).
Proof.
  intros self1.
  apply setmodel_then_updatemodel_other; [reflexivity|discriminate].
Defined.

Lemma updatemodel_rejected_witness :
  updatemodel (MC := stubborn) "basic_range" ["range=300"] (wlan [(0, eth0)])
  = (Ok tt, wlan [(0, eth0)]).
Proof.
  apply (updatemodel_rejected (MC := stubborn) (wlan [(0, eth0)]) basic_range
           ["range=300"] ["range=275"]); reflexivity.
Defined.

End WlanNodeLifeWitnesses.

Section RJ45NodeLifeWitnesses.
Import RJ45Node RJ45NodeLookup Sample Cases.

Lemma newnetif_then_lookup_witness :
  let s1 := (newnetif (Some 5) None None None None (rj45, card)).2 in
  netif (Some 0) None s1.1 = Some 9
  /\ getifindex 9 s1.1 = Some 0
  /\ netif (Some 3) (Some 5) s1.1 = Some 9
  /\ netif (Some 1) None s1.1 = None
  /\ getifindex 4 s1.1 = None.
Proof.
  intros s1.
  assert (newnetif (Some 5) None None None None (rj45, card) = (Ok 0, s1)) as Hrun
    by (vm_compute; reflexivity).
  destruct (newnetif_then_lookup (Some 5) None None None None (rj45, card) 0 s1
              Hrun) as (Hown & Hidx & Hnet & Hother & Hobj).
  split; [|split; [|split; [|split]]].
  - exact Hown.
  - exact Hidx.
  - exact (Hnet 5 (Some 3) eq_refl).
  - apply Hother. discriminate.
  - apply Hobj. discriminate.
Defined.

Lemma newnetif_after_delnetif_witness :
  let s1 := (newnetif (Some 5) None None None None (rj45, card)).2 in
  let s2 := (delnetif (Some 0) s1).2 in
  newnetif (Some 6) None None None None s2
  = (Raise (ValueError "RJ45 nodes support at most 1 network interface"), s2).
Proof.
  intros s1 s2.
  apply (newnetif_after_delnetif 5 None None None None (rj45, card) 0 s1 (Some 0)).
  vm_compute. reflexivity.
Defined.

Lemma newnetif_failed_attach_witness :
  exists self',
    newnetif (N := Fussy.networks) (Some Fussy.full_network) None None None None
      (rj45, refusing [])
    = (Raise (ValueError "Point-to-point links support at most 2 network interfaces"),
       (self', refusing []))
    /\ _netif self' = <[0 := 9]> ∅
    /\ ifindex self' = Some 0
    /\ net self' = None.
Proof.
  apply (newnetif_failed_attach (N := Fussy.networks) rj45 (refusing []) (refusing [])
           Fussy.full_network _ None None None None); reflexivity.
Defined.

Lemma delnetif_removes_key_witness :
  let s1 := (newnetif None None None (Some 0) None (rj45, card)).2 in
  let s2 := (newnetif None None None (Some 1) None s1).2 in
  let s' := (delnetif (Some 0) s2).2 in
  _netif s'.1 !! 0 = None
  /\ _netif s'.1 !! 1 = Some 9
  /\ net s'.1 = None
  /\ ifindex s'.1 = Some 1.
Proof.
  intros s1 s2 s'.
  pose proof (delnetif_removes_key (Some 0) s2) as Hdel. cbv zeta in Hdel.
  destruct Hdel as (Hkey & Hrest & Hnet & Hidx). split; [|split; [|split]].
  - exact Hkey.
  - etransitivity; [apply (Hrest 1); discriminate | vm_compute; reflexivity].
  - etransitivity; [exact Hnet | reflexivity].
  - etransitivity; [exact Hidx | reflexivity].
Defined.

Lemma shutdown_twice_witness :
  shutdown (rj45, card) = (Ok tt, (rj45, card))
  /\ let s' := (shutdown (with_up true rj45, card)).2 in
     shutdown s' = (Ok tt, s').
Proof.
  split.
  - apply (proj1 (shutdown_twice (rj45, card))). reflexivity.
  - intros s'. apply (proj2 (shutdown_twice (with_up true rj45, card))).
    vm_compute. reflexivity.
Defined.

Lemma shutdown_failed_restore_witness :
  let w := refusing [[IP_BIN; "addr"; "add"; "10.0.0.5/24"; "brd"; "10.0.0.255";
                      "dev"; "eth0"]] in
  let s4 := (shutdown (running, w)).2 in
  shutdown (running, w) = (Raise CalledProcessError, s4)
  /\ up s4.1 = false
  /\ shutdown s4 = (Ok tt, s4).
Proof.
  intros w s4.
  eapply (shutdown_failed_restore running w _ _ _ "" "" 0 "" CalledProcessError);
    [reflexivity | reflexivity | reflexivity | reflexivity | vm_compute; reflexivity].
Defined.

Lemma startup_spawn_failure_witness :
  startup (stale, {| attempts := [] |})
  = (Raise UnboundLocalError,
     (rj45, {| attempts := [[IP_BIN; "addr"; "show"; "dev"; "eth0"]] |})).
Proof.
  apply (startup_spawn_failure stale {| attempts := [] |}). reflexivity.
Defined.

Lemma startup_link_outcome_witness :
  let w := refusing [[IP_BIN; "link"; "set"; "eth0"; "up"]] in
  startup (rj45, w)
  = (Ok tt,
     (rj45,
      {| Fussy.refused := Fussy.refused w;
         Fussy.seen := [ [IP_BIN; "addr"; "show"; "dev"; "eth0"];
                         [IP_BIN; "link"; "set"; "eth0"; "up"] ] |})).
Proof.
  intros w.
  apply (startup_link_outcome (rj45, w) rj45
           {| Fussy.refused := Fussy.refused w;
              Fussy.seen := [[IP_BIN; "addr"; "show"; "dev"; "eth0"]] |}
           _ 1 ""); reflexivity.
Defined.

Lemma savestate_no_link_local_witness :
  old_addrs (savestate (rj45, card)).2.1
  = [("10.0.0.5/24", Some "10.0.0.255"); ("2001:db8::5/64", None)]
  /\ Py.slice_to 4 "2001:db8::5/64" <> "fe80".
Proof.
  split; [vm_compute; reflexivity|].
  apply (savestate_no_link_local (rj45, card)).
  vm_compute. apply list_elem_of_further, list_elem_of_here.
Defined.

Lemma savestate_listing_failure_witness :
  let w := refusing [[IP_BIN; "addr"; "show"; "dev"; "eth0"]] in
  savestate (stale, w)
  = (Ok tt,
     (rj45,
      {| Fussy.refused := Fussy.refused w;
         Fussy.seen := [[IP_BIN; "addr"; "show"; "dev"; "eth0"]] |})).
Proof.
  intros w.
  apply (savestate_listing_failure stale w _ 1 ""); [reflexivity|discriminate].
Defined.

Lemma addaddr_guard_witness :
  let w := refusing [[IP_BIN; "addr"; "add"; "10.0.0.7/24"; "dev"; "eth0"]] in
  addaddr "10.0.0.7/24" (rj45, w)
  = (Ok tt, (with_addrlist ["10.0.0.7/24"] rj45, w))
  /\ addaddr "10.0.0.7/24" (with_up true rj45, w)
     = (Raise CalledProcessError,
        (with_up true rj45,
         {| Fussy.refused := Fussy.refused w;
            Fussy.seen := [[IP_BIN; "addr"; "add"; "10.0.0.7/24"; "dev"; "eth0"]] |})).
Proof.
  intros w. split.
  - apply (proj1 (addaddr_guard rj45 w w "10.0.0.7/24" 0 "")). reflexivity.
  - apply (proj2 (addaddr_guard (with_up true rj45) w _ "10.0.0.7/24" 1 ""));
      [reflexivity|reflexivity|discriminate].
Defined.

End RJ45NodeLifeWitnesses.
